(** * Schedule generation for measuring Hamiltonian parameters

    A shallow embedding of
    [qiskit/ignis/characterization/hamiltonian/schedule.py]:
    channel resolution ([_get_channels]), the two CR Rabi builders
    ([cr1_rabi_schedules], [cr2_rabi_schedules]) and the tomography
    wrapper ([cr_tomography_schedules]).

    Python exceptions are the [Raise] results of an error monad, Python
    integers are [Z], Python floats are binary64 primitive floats, and
    the [for] loops over lists are monadic folds that thread the
    [schedules] accumulator. *)

From Stdlib Require Import ZArith String Ascii List Bool Floats DecimalString Lia.
From Stdlib Require DecimalZ DecimalPos.
Import ListNotations.
Local Open Scope string_scope.
Local Open Scope list_scope.
Local Open Scope Z_scope.

(** ** Python exceptions and the error monad *)

Module Py.

Inductive exn : Type :=
| PulseError (msg : string)
| CharacterizationError (msg : string)
| TypeError (msg : string)
| IndexError
| OverflowError
| ValueError.

Inductive result (A : Type) : Type :=
| Ok (a : A)
| Raise (e : exn).

Arguments Ok {A} a.
Arguments Raise {A} e.

Definition bind {A B : Type} (m : result A) (k : A -> result B) : result B :=
  match m with
  | Ok a => k a
  | Raise e => Raise e
  end.

(** Numbers a caller can pass as an amplitude or a gate parameter. *)
Inductive num : Type :=
| PyInt (z : Z)
| PyFloat (f : float)
| PyComplex (re im : float).

(** [bool(x)] of a number: zero is false.  For floats the test is the
    IEEE comparison with zero, so [-0.0] is false and a NaN is true. *)
Definition num_truthy (x : num) : bool :=
  match x with
  | PyInt z => negb (z =? 0)
  | PyFloat f => negb (PrimFloat.eqb f 0%float)
  | PyComplex re im =>
      negb (PrimFloat.eqb re 0%float) || negb (PrimFloat.eqb im 0%float)
  end.

(** [bool(x)] of an optional number: [None] is false. *)
Definition truthy (x : option num) : bool :=
  match x with
  | None => false
  | Some n => num_truthy n
  end.

(** Unary minus. *)
Definition neg (x : num) : num :=
  match x with
  | PyInt z => PyInt (- z)
  | PyFloat f => PyFloat (PrimFloat.opp f)
  | PyComplex re im => PyComplex (PrimFloat.opp re) (PrimFloat.opp im)
  end.

(** The values a schedule name takes in this module: the default
    [None], a string, or an integer. *)
Inductive value : Type :=
| VNone
| VStr (s : string)
| VInt (z : Z).

(** ['%d' % z] for an integer. *)
Definition str_of_int (z : Z) : string := NilZero.string_of_int (Z.to_int z).

(** The [%d] conversion: a number is required. *)
Definition format_d (v : value) : result string :=
  match v with
  | VInt z => Ok (str_of_int z)
  | VStr _ => Raise (TypeError "%d format: a number is required, not str")
  | VNone => Raise (TypeError "%d format: a number is required, not NoneType")
  end.

(** [float(z)]: the nearest binary64, [OverflowError] beyond its range. *)
Definition float_of_int (z : Z) : result float :=
  let f := SF2Prim (binary_normalize prec emax z 0 false) in
  if PrimFloat.is_infinity f then Raise OverflowError else Ok f.

(** [int(f)]: truncation towards zero. *)
Definition int_of_float (f : float) : result Z :=
  match Prim2SF f with
  | S754_zero _ => Ok 0
  | S754_finite s m e =>
      let a := Z.shiftl (Zpos m) e in
      Ok (if s then - a else a)
  | S754_infinity _ => Raise OverflowError
  | S754_nan => Raise ValueError
  end.

(** [l[i]] on a Python list: negative indices count from the end. *)
Definition index {A : Type} (l : list A) (i : Z) : result A :=
  let n := Z.of_nat (length l) in
  let j := if i <? 0 then i + n else i in
  if (0 <=? j) && (j <? n)
  then match nth_error l (Z.to_nat j) with
       | Some a => Ok a
       | None => Raise IndexError
       end
  else Raise IndexError.

(** [for x in l: s = body(x, s)], stopping at the first exception. *)
Fixpoint for_each {A S : Type} (l : list A) (body : A -> S -> result S)
  (s : S) : result S :=
  match l with
  | [] => Ok s
  | x :: xs => bind (body x s) (for_each xs body)
  end.

(** [enumerate(l)], counting from [i]. *)
Fixpoint enumerate_from {A : Type} (i : Z) (l : list A) : list (Z * A) :=
  match l with
  | [] => []
  | x :: xs => (i, x) :: enumerate_from (i + 1) xs
  end.

Definition enumerate {A : Type} (l : list A) : list (Z * A) :=
  enumerate_from 0 l.

(** [[f(x) for x in l]], stopping at the first exception. *)
Fixpoint map_each {A B : Type} (f : A -> result B) (l : list A)
  : result (list B) :=
  match l with
  | [] => Ok []
  | x :: xs =>
      bind (f x) (fun y => bind (map_each f xs) (fun ys => Ok (y :: ys)))
  end.

End Py.

Import Py.

Declare Scope py_scope.
Delimit Scope py_scope with py.
Notation "x <- m ;; k" := (bind m (fun x => k))
  (at level 61, m at next level, right associativity) : py_scope.
Notation "' pat <- m ;; k" := (bind m (fun x => match x with pat => k end))
  (at level 61, pat pattern, m at next level, right associativity) : py_scope.
Local Open Scope py_scope.

(** ** The pulse library, as far as this module uses it

    [qiskit.pulse] is not part of this repository.  The model below keeps
    what the module observes of it: channels compared by kind and index,
    commands with an integer duration, schedules as named collections of
    timed instructions, and the three schedule operations [insert],
    [shift] and [filter].  A schedule is an immutable value: [insert],
    [shift] and [filter] return a new schedule and leave the receiver as
    it was ("Return a new schedule with `schedule` inserted within
    `self` at `start_time`"), which is how [cr_tomography_schedules]
    uses them: [sched = sched.insert(...)],
    ['x': xproj_sched.insert(proj_delay, measure)] and
    ['z': measure.shift(proj_delay)].  Building time slots raises a
    [PulseError] when an interval would begin before time 0 or when two
    intervals on one channel overlap. *)

Module Pulse.

Inductive Channel : Type :=
| DriveChannel (index : Z)
| ControlChannel (index : Z)
| MeasureChannel (index : Z)
| AcquireChannel (index : Z)
| MemorySlot (index : Z).

Definition Channel_eqb (a b : Channel) : bool :=
  match a, b with
  | DriveChannel i, DriveChannel j => i =? j
  | ControlChannel i, ControlChannel j => i =? j
  | MeasureChannel i, MeasureChannel j => i =? j
  | AcquireChannel i, AcquireChannel j => i =? j
  | MemorySlot i, MemorySlot j => i =? j
  | _, _ => false
  end.

(** [isinstance(channel, pulse.ControlChannel)] *)
Definition is_ControlChannel (c : Channel) : bool :=
  match c with
  | ControlChannel _ => true
  | _ => false
  end.

(** A sample of a pulse envelope: a complex number. *)
Definition sample : Type := (float * float)%type.

Inductive Command : Type :=
| SamplePulse (samples : list sample)
| FrameChange (phase : float)
| PersistentValue (value : sample)
| Acquire (duration : Z)
| Delay (duration : Z).

(** A sample pulse lasts as long as it has samples; frame changes and
    persistent values take no time. *)
Definition command_duration (c : Command) : Z :=
  match c with
  | SamplePulse samples => Z.of_nat (length samples)
  | FrameChange _ => 0
  | PersistentValue _ => 0
  | Acquire d => d
  | Delay d => d
  end.

(** A command bound to the channels it plays on. *)
Record Instruction : Type := mkInstruction {
  command : Command;
  inst_channels : list Channel
}.

(** [isinstance(inst, pulse.commands.PulseInstruction)] *)
Definition is_PulseInstruction (i : Instruction) : bool :=
  match command i with
  | SamplePulse _ => true
  | _ => false
  end.

(** An instruction with its start time in a schedule. *)
Definition timed : Type := (Z * Instruction)%type.

Definition start_of (ti : timed) : Z := fst ti.
Definition stop_of (ti : timed) : Z := fst ti + command_duration (command (snd ti)).

Record Schedule : Type := mkSchedule {
  name : value;
  instructions : list timed
}.

(** [pulse.Schedule(name=n)] *)
Definition empty (n : value) : Schedule := mkSchedule n [].

(** [sched.duration]: the latest stop time, 0 for an empty schedule. *)
Definition duration (s : Schedule) : Z :=
  fold_right (fun ti acc => Z.max (stop_of ti) acc) 0 (instructions s).

Fixpoint dedup (seen : list Channel) (l : list Channel) : list Channel :=
  match l with
  | [] => []
  | c :: cs =>
      if existsb (Channel_eqb c) seen then dedup seen cs
      else c :: dedup (c :: seen) cs
  end.

(** [sched.channels]: each channel once, in the order of first use. *)
Definition channels (s : Schedule) : list Channel :=
  dedup [] (flat_map (fun ti => inst_channels (snd ti)) (instructions s)).

(** Two timed instructions collide when they share a channel and their
    intervals overlap ([a.start < b.stop and a.stop > b.start]). *)
Definition shares_channel (i j : Instruction) : bool :=
  existsb (fun c => existsb (Channel_eqb c) (inst_channels j)) (inst_channels i).

Definition overlaps (a b : timed) : bool :=
  shares_channel (snd a) (snd b)
  && (start_of a <? stop_of b) && (start_of b <? stop_of a).

Definition shift_timed (t : Z) (l : list timed) : list timed :=
  map (fun ti => (t + fst ti, snd ti)) l.

(** What building the time slots of [l] shifted by [t] next to the slots
    of [old] checks: no interval starts before time 0, and none collides
    with an interval already there. *)
Definition place (old : list timed) (t : Z) (l : list timed)
  : result (list timed) :=
  let new := shift_timed t l in
  if existsb (fun ti => start_of ti <? 0) new
  then Raise (PulseError "Cannot create Interval with negative begin time")
  else if existsb (fun a => existsb (overlaps a) new) old
  then Raise (PulseError "Child schedules overlap.")
  else Ok (old ++ new).

(** [self.insert(start_time, schedule)]: a new schedule, named as [self],
    with the instructions of [schedule] added at [start_time]. *)
Definition insert (self : Schedule) (start_time : Z) (schedule : Schedule)
  : result Schedule :=
  l <- place (instructions self) start_time (instructions schedule) ;;
  Ok (mkSchedule (name self) l).

(** [self.shift(time)] *)
Definition shift (self : Schedule) (time : Z) : result Schedule :=
  l <- place [] time (instructions self) ;;
  Ok (mkSchedule (name self) l).

Definition channel_index (c : Channel) : Z :=
  match c with
  | DriveChannel i => i
  | ControlChannel i => i
  | MeasureChannel i => i
  | AcquireChannel i => i
  | MemorySlot i => i
  end.

(** [min(chan.index for chan in inst.channels)]; an instruction plays on
    at least one channel. *)
Definition lowest_index (i : Instruction) : Z :=
  match inst_channels i with
  | [] => 0
  | c :: cs => fold_right (fun c' acc => Z.min (channel_index c') acc)
                 (channel_index c) cs
  end.

(** The order of the sort key (start time, duration, lowest channel
    index) of a timed instruction. *)
Definition key_leb (a b : timed) : bool :=
  (start_of a <? start_of b)
  || ((start_of a =? start_of b)
      && ((command_duration (command (snd a)) <? command_duration (command (snd b)))
          || ((command_duration (command (snd a)) =? command_duration (command (snd b)))
              && (lowest_index (snd a) <=? lowest_index (snd b))))).

Fixpoint insert_by_key (a : timed) (l : list timed) : list timed :=
  match l with
  | [] => [a]
  | b :: l' => if key_leb a b then a :: b :: l' else b :: insert_by_key a l'
  end.

(** [self.instructions]: the timed instructions sorted by their key; the
    sort is stable, instructions of equal key keep their order. *)
Definition sorted_instructions (self : Schedule) : list timed :=
  fold_right insert_by_key [] (instructions self).

(** [self.filter(instruction_types=[PulseInstruction])]: the schedule
    of the pulse instructions among [self.instructions], in that order. *)
Definition filter_pulse (self : Schedule) : Schedule :=
  mkSchedule (name self)
    (filter (fun ti => is_PulseInstruction (snd ti)) (sorted_instructions self)).

(** [cmd(channel)]: the instruction playing [cmd] on [channel], as a
    schedule component.  Its time slot is the interval from 0 to the
    command's duration, which must not be negative. *)
Definition play (cmd : Command) (channel : Channel) : result Schedule :=
  if command_duration cmd <? 0
  then Raise (PulseError "Cannot create Interval with negative end time")
  else Ok (mkSchedule VNone [(0, mkInstruction cmd [channel])]).

(** Keyword parameters of a parameterized command. *)
Definition params : Type := list (string * num).

(** A command definition: (name, qubits, parameters) to schedule. *)
Definition CmdDef : Type := string -> list Z -> params -> option Schedule.

(** [cmd_def.get(cmd_name, qubits=..., **params)] *)
Definition get (cmd_def : CmdDef) (cmd_name : string) (qubits : list Z)
  (p : params) : result Schedule :=
  match cmd_def cmd_name qubits p with
  | Some s => Ok s
  | None => Raise (PulseError "Command is not present in CmdDef")
  end.

(** What the module reads of a backend: its default command definition
    ([CmdDef.from_defaults(defaults.cmd_def, defaults.pulse_library)]),
    [defaults.buffer], and of its configuration [dt], [meas_map] and
    [n_qubits]. *)
Record Backend : Type := mkBackend {
  default_cmd_def : CmdDef;
  buffer : Z;
  dt : float;
  meas_map : list (list Z);
  n_qubits : Z
}.

(** [PulseChannelSpec.from_backend(backend).qubits[q].drive]: the list
    of qubits has one entry per qubit of the backend, the [i]-th with
    drive channel [DriveChannel(i)]. *)
Definition qubit_drive (backend : Backend) (q : Z) : result Channel :=
  let n := Z.max 0 (n_qubits backend) in
  let j := if q <? 0 then q + n else q in
  if (0 <=? j) && (j <? n) then Ok (DriveChannel j) else Raise IndexError.

End Pulse.

Import Pulse.

(** ** The module *)

(** [math.pi] and the literal [1e-9], as binary64 values. *)
Definition pi : float := 0x1.921fb54442d18p+1%float.
Definition nano : float := 0x1.12e0be826d695p-30%float.

(** [if not cmd_def: cmd_def = pulse.CmdDef.from_defaults(...)] *)
Definition resolve_cmd_def (backend : Backend) (cmd_def : option CmdDef) : CmdDef :=
  match cmd_def with
  | Some c => c
  | None => default_cmd_def backend
  end.

(** ['Cross resonance is not defined for qubits %d-%d.' % (c_qubit, t_qubit)] *)
Definition cross_resonance_not_defined (c_qubit t_qubit : Z) : string :=
  String.append "Cross resonance is not defined for qubits "
    (String.append (str_of_int c_qubit)
       (String.append "-" (String.append (str_of_int t_qubit) "."))).

Definition no_valid_control_channel : string :=
  "No valid control channel to drive cross resonance.".

(** The channels of the pair: control drive, target drive and the
    control channel that drives the cross resonance. *)
Definition _get_channels (c_qubit t_qubit : Z) (backend : Backend)
  (cmd_def : option CmdDef) : result (Channel * Channel * Channel) :=
  let cmd_def := resolve_cmd_def backend cmd_def in
  cx_ref <- match get cmd_def "cx" [c_qubit; t_qubit] [] with
            | Ok s => Ok s
            | Raise (PulseError _) =>
                Raise (CharacterizationError
                         (cross_resonance_not_defined c_qubit t_qubit))
            | Raise e => Raise e
            end ;;
  let cx_ref := filter_pulse cx_ref in
  cr_drive <- match find is_ControlChannel (channels cx_ref) with
              | Some channel => Ok channel
              | None => Raise (CharacterizationError no_valid_control_channel)
              end ;;
  c_drive <- qubit_drive backend c_qubit ;;
  t_drive <- qubit_drive backend t_qubit ;;
  Ok (c_drive, t_drive, cr_drive).

(** [np.array(cr_samples, dtype=np.float) * backend.configuration().dt * 1e-9] *)
Definition cr_times_of (cr_samples : list Z) (backend : Backend)
  : result (list float) :=
  arr <- map_each float_of_int cr_samples ;;
  Ok (map (fun x => PrimFloat.mul (PrimFloat.mul x (dt backend)) nano) arr).

(** ['%d,%s,%d' % (rabi_name, basis, c_state)] *)
Definition tomography_name (rabi_name : value) (basis : string) (c_state : Z)
  : result string :=
  d <- format_d rabi_name ;;
  Ok (String.append d
        (String.append ","
           (String.append basis (String.append "," (str_of_int c_state))))).

Section Builders.

(** [pulse_lib.gaussian_square(duration, amp, sigma, risefall)]: the
    samples of a flat-top pulse, or the exception the library raises for
    the arguments.  The envelope is the library's business; the module
    passes its arguments on and uses the result as a command. *)
Variable gaussian_square : Z -> num -> float -> Z -> result (list sample).

(** The cancellation command of both builders,
    [if cancellation_amp: gaussian_square(..., amp=sign(cancellation_amp), ...)
     else: Delay(duration)],
    where [sign] is the identity or the unary minus. *)
Definition cancellation_command (cancellation_amp : option num)
  (sign : num -> num) (duration : Z) (sigma : float) (risefall : Z)
  : result Command :=
  match cancellation_amp with
  | Some amp =>
      if num_truthy amp
      then samples <- gaussian_square duration (sign amp) sigma risefall ;;
           Ok (SamplePulse samples)
      else Ok (Delay duration)
  | None => Ok (Delay duration)
  end.

(** The body of the loop of [cr1_rabi_schedules].  The two statements
    [sched.insert(0, ...)] evaluate the call and drop the schedule it
    returns; [sched] stays bound to the schedule created at the top,
    and this is what the body appends. *)
Definition cr1_body (t_drive cr_drive : Channel) (cr_amp : num)
  (sigma : float) (risefall : Z) (cancellation_amp : option num)
  (item : Z * Z) (schedules : list Schedule) : result (list Schedule) :=
  let '(index, cr_sample) := item in
  let sched := empty (VStr (str_of_int index)) in
  cr_sched <- gaussian_square cr_sample cr_amp sigma risefall ;;
  can_sched <- cancellation_command cancellation_amp (fun a => a)
                 cr_sample sigma risefall ;;
  cr_inst <- play (SamplePulse cr_sched) cr_drive ;;
  _ <- insert sched 0 cr_inst ;;
  can_inst <- play can_sched t_drive ;;
  _ <- insert sched 0 can_inst ;;
  Ok (schedules ++ [sched]).

Definition cr1_rabi_schedules (c_qubit t_qubit : Z) (backend : Backend)
  (cr_samples : list Z) (cr_amp : num) (sigma : float) (risefall : Z)
  (cancellation_amp : option num) (cmd_def : option CmdDef)
  : result (list float * list Schedule) :=
  let cmd_def := resolve_cmd_def backend cmd_def in
  '(_, t_drive, cr_drive) <- _get_channels c_qubit t_qubit backend (Some cmd_def) ;;
  schedules <- for_each (enumerate cr_samples)
                 (cr1_body t_drive cr_drive cr_amp sigma risefall cancellation_amp)
                 [] ;;
  cr_times <- cr_times_of cr_samples backend ;;
  Ok (cr_times, schedules).

(** [int(0.5 * cr_sample)] *)
Definition half_of (cr_sample : Z) : result Z :=
  x <- float_of_int cr_sample ;;
  int_of_float (PrimFloat.mul 0.5%float x).

(** The body of the loop of [cr2_rabi_schedules].  As in
    [cr1_rabi_schedules] the schedules that the [sched.insert(...)]
    statements return are dropped, so that [sched.duration] is the
    duration of the schedule created at the top in every offset. *)
Definition cr2_body (t_drive cr_drive : Channel) (echo_pi : Schedule)
  (buffer : Z) (cr_amp : num) (sigma : float) (risefall : Z)
  (cancellation_amp : option num)
  (item : Z * Z) (schedules : list Schedule) : result (list Schedule) :=
  let '(index, cr_sample) := item in
  let sched := empty (VStr (str_of_int index)) in
  half_cr_sample <- half_of cr_sample ;;
  cr_sched_p <- gaussian_square half_cr_sample cr_amp sigma risefall ;;
  cr_sched_m <- gaussian_square half_cr_sample (neg cr_amp) sigma risefall ;;
  can_sched_p <- cancellation_command cancellation_amp (fun a => a)
                   half_cr_sample sigma risefall ;;
  can_sched_m <- cancellation_command cancellation_amp neg
                   half_cr_sample sigma risefall ;;
  cr_inst_p <- play (SamplePulse cr_sched_p) cr_drive ;;
  _ <- insert sched 0 cr_inst_p ;;
  can_inst_p <- play can_sched_p t_drive ;;
  _ <- insert sched 0 can_inst_p ;;
  _ <- insert sched (duration sched + buffer) echo_pi ;;
  cr_inst_m <- play (SamplePulse cr_sched_m) cr_drive ;;
  _ <- insert sched (duration sched + buffer) cr_inst_m ;;
  can_inst_m <- play can_sched_m t_drive ;;
  _ <- insert sched (duration sched + buffer) can_inst_m ;;
  _ <- insert sched (duration sched + buffer) echo_pi ;;
  Ok (schedules ++ [sched]).

Definition cr2_rabi_schedules (c_qubit t_qubit : Z) (backend : Backend)
  (cr_samples : list Z) (cr_amp : num) (sigma : float) (risefall : Z)
  (cancellation_amp : option num) (cmd_def : option CmdDef)
  : result (list float * list Schedule) :=
  let cmd_def := resolve_cmd_def backend cmd_def in
  '(_, t_drive, cr_drive) <- _get_channels c_qubit t_qubit backend (Some cmd_def) ;;
  echo_pi <- get cmd_def "x" [c_qubit] [] ;;
  let buffer := buffer backend in
  schedules <- for_each (enumerate cr_samples)
                 (cr2_body t_drive cr_drive echo_pi buffer cr_amp sigma risefall
                    cancellation_amp)
                 [] ;;
  cr_times <- cr_times_of cr_samples backend ;;
  Ok (cr_times, schedules).

End Builders.

(** The body of the innermost loop of [cr_tomography_schedules]. *)
Definition tomography_body (flip_ctrl : Schedule) (buffer : Z)
  (rabi_sched : Schedule) (basis : string) (meas_sched : Schedule)
  (c_state : Z) (schedules : list Schedule) : result (list Schedule) :=
  n <- tomography_name (name rabi_sched) basis c_state ;;
  let sched := empty (VStr n) in
  sched <- (if negb (c_state =? 0) then insert sched 0 flip_ctrl else Ok sched) ;;
  sched <- insert sched (duration flip_ctrl + buffer) rabi_sched ;;
  sched <- insert sched (duration sched + buffer) meas_sched ;;
  Ok (schedules ++ [sched]).

Definition cr_tomography_schedules (c_qubit t_qubit : Z) (backend : Backend)
  (rabi_schedules : list Schedule) (cmd_def : option CmdDef)
  : result (list Schedule) :=
  let cmd_def := resolve_cmd_def backend cmd_def in
  let buffer := buffer backend in
  flip_ctrl <- get cmd_def "x" [c_qubit] [] ;;
  meas_qubits <- index (meas_map backend) 0 ;;
  measure <- get cmd_def "measure" meas_qubits [] ;;
  xproj_sched <- get cmd_def "u2" [t_qubit]
                   [("P0", PyInt 0); ("P1", PyFloat pi)] ;;
  yproj_sched <- get cmd_def "u2" [t_qubit]
                   [("P0", PyInt 0); ("P1", PyFloat (PrimFloat.mul 0.5%float pi))] ;;
  let proj_delay := Z.max (duration xproj_sched) (duration yproj_sched) + buffer in
  meas_x <- insert xproj_sched proj_delay measure ;;
  meas_y <- insert yproj_sched proj_delay measure ;;
  meas_z <- shift measure proj_delay ;;
  let meas_basis := [("x", meas_x); ("y", meas_y); ("z", meas_z)] in
  for_each rabi_schedules
    (fun rabi_sched schedules =>
       for_each meas_basis
         (fun '(basis, meas_sched) schedules =>
            for_each [0; 1]
              (tomography_body flip_ctrl buffer rabi_sched basis meas_sched)
              schedules)
         schedules)
    [].

(** ** A two-qubit backend to run the module on *)

Module Example.

Definition flat (n : nat) : Command := SamplePulse (repeat (0.125%float, 0%float) n).

Definition on (t : Z) (cmd : Command) (chs : list Channel) : timed :=
  (t, mkInstruction cmd chs).

(** The calibrated pi pulse on qubit [q]: 4 samples on its drive channel. *)
Definition x_gate (q : Z) : Schedule :=
  mkSchedule (VStr "x") [on 0 (flat 4) [DriveChannel q]].

(** [u2]: a frame change, a 4-sample pulse and a second frame change. *)
Definition u2_gate (q : Z) (phase : float) : Schedule :=
  mkSchedule (VStr "u2")
    [on 0 (FrameChange phase) [DriveChannel q];
     on 0 (flat 4) [DriveChannel q];
     on 4 (FrameChange 0%float) [DriveChannel q]].

(** Measurement of both qubits: 8 samples of stimulus and acquisition. *)
Definition measure_all : Schedule :=
  mkSchedule (VStr "measure")
    [on 0 (flat 8) [MeasureChannel 0];
     on 0 (flat 8) [MeasureChannel 1];
     on 0 (Acquire 8) [AcquireChannel 0; AcquireChannel 1; MemorySlot 0; MemorySlot 1]].

(** [cx] with control [c] and target [t], defined for the pair (0, 1)
    only: a frame change on control
    channel [u], then pulses on the drives and on [u]. *)
Definition cx_gate (c t u : Z) : Schedule :=
  mkSchedule (VStr "cx")
    [on 0 (FrameChange 0%float) [ControlChannel u];
     on 0 (flat 4) [DriveChannel c];
     on 4 (flat 6) [DriveChannel t];
     on 4 (flat 6) [ControlChannel u]].

(** A [cx] whose only instruction on a control channel is a frame change. *)
Definition cx_without_drive (c t u : Z) : Schedule :=
  mkSchedule (VStr "cx")
    [on 0 (FrameChange 0%float) [ControlChannel u];
     on 0 (flat 4) [DriveChannel c];
     on 4 (flat 6) [DriveChannel t]].

Definition phase_of (p : params) : float :=
  match p with
  | [(_, _); (_, PyFloat f)] => f
  | _ => 0%float
  end.

Definition single (qubits : list Z) : option Z :=
  match qubits with
  | [q] => if (0 <=? q) && (q <? 2) then Some q else None
  | _ => None
  end.

(** The command definition, with the [cx] entries left open. *)
Definition cmd_def_with (cx : list Z -> option Schedule) : CmdDef :=
  fun cmd_name qubits p =>
    if String.eqb cmd_name "x" then option_map x_gate (single qubits)
    else if String.eqb cmd_name "u2"
    then option_map (fun q => u2_gate q (phase_of p)) (single qubits)
    else if String.eqb cmd_name "measure"
    then match qubits with
         | [0; 1] => Some measure_all
         | _ => None
         end
    else if String.eqb cmd_name "cx" then cx qubits
    else None.

Definition cx_table (qubits : list Z) : option Schedule :=
  match qubits with
  | [0; 1] => Some (cx_gate 0 1 0)
  | _ => None
  end.

Definition cmd_def : CmdDef := cmd_def_with cx_table.

Definition backend : Backend :=
  mkBackend cmd_def 2 0.5%float [[0; 1]] 2.

(** A stand-in for the library's flat-top envelope: [duration] samples
    of the amplitude. *)
Definition sample_of (amp : num) : sample :=
  match amp with
  | PyInt z => (SF2Prim (binary_normalize prec emax z 0 false), 0%float)
  | PyFloat f => (f, 0%float)
  | PyComplex re im => (re, im)
  end.

Definition gaussian_square (duration : Z) (amp : num) (sigma : float)
  (risefall : Z) : result (list sample) :=
  Ok (repeat (sample_of amp) (Z.to_nat duration)).

End Example.

(** ** Vocabulary of the statements *)

(** A command definition that also has a [cx] from qubit 0 to itself. *)
Definition self_cx_cmd_def : CmdDef :=
  Example.cmd_def_with (fun qubits =>
    match qubits with
    | [0; 0] => Some (Example.cx_gate 0 0 0)
    | _ => Example.cx_table qubits
    end).

(** What an iteration of either builder appends: the schedule created at
    the top of the body.  The schedules that the [insert] calls of the
    body return are not bound to anything. *)
Definition appends_fresh (body : Z * Z -> list Schedule -> result (list Schedule))
  : Prop :=
  forall item acc acc',
    body item acc = Ok acc' ->
    acc' = acc ++ [empty (VStr (str_of_int (fst item)))].

(** The unechoed builder on the example backend: durations 10 and 20,
    amplitude 0.25, sigma 2, rise and fall of 2 samples. *)
Definition cr1_example (cancellation_amp : option num)
  : result (list float * list Schedule) :=
  cr1_rabi_schedules Example.gaussian_square 0 1 Example.backend [10; 20]
    (PyFloat 0.25%float) 2%float 2 cancellation_amp None.

(** The cancellation amplitudes [0], [0.0] and [0j]. *)
Definition zero_amps : list num :=
  [PyInt 0; PyFloat 0%float; PyComplex 0%float 0%float].

(** The schedule that an iteration of the innermost loop appends. *)
Definition tomography_sched (flip_ctrl : Schedule) (buffer : Z)
  (rabi_sched : Schedule) (basis : string) (meas_sched : Schedule)
  (c_state : Z) : result Schedule :=
  n <- tomography_name (name rabi_sched) basis c_state ;;
  let sched := empty (VStr n) in
  sched <- (if negb (c_state =? 0) then insert sched 0 flip_ctrl else Ok sched) ;;
  sched <- insert sched (duration flip_ctrl + buffer) rabi_sched ;;
  insert sched (duration sched + buffer) meas_sched.

(** The schedules appended for one Rabi schedule: for each basis, for
    each control state. *)
Definition tomography_group (flip_ctrl : Schedule) (buffer : Z)
  (meas_basis : list (string * Schedule)) (rabi_sched : Schedule)
  : result (list Schedule) :=
  yss <- map_each
           (fun '(basis, meas_sched) =>
              yss <- map_each
                       (fun c_state =>
                          sched <- tomography_sched flip_ctrl buffer rabi_sched
                                     basis meas_sched c_state ;;
                          Ok [sched])
                       [0; 1] ;;
              Ok (concat yss))
           meas_basis ;;
  Ok (concat yss).

(** The part of a tomography schedule that precedes the measurement:
    the flip at offset 0 when the control state is not 0, and the Rabi
    schedule at the offset [flip_ctrl.duration + buffer] in either case. *)
Definition before_measurement (flip_ctrl : Schedule) (buffer : Z)
  (rabi_sched : Schedule) (c_state : Z) : list timed :=
  (if c_state =? 0 then [] else shift_timed 0 (instructions flip_ctrl))
  ++ shift_timed (duration flip_ctrl + buffer) (instructions rabi_sched).

(** The measurement schedules per basis, in the order of the dictionary. *)
Definition bases (meas_x meas_y meas_z : Schedule) : list (string * Schedule) :=
  [("x", meas_x); ("y", meas_y); ("z", meas_z)].

(** A hand-made Rabi schedule named by the integer 0: a delay of 10
    samples on control channel 0, starting at time 0. *)
Definition rabi_delay : Schedule :=
  mkSchedule (VInt 0) [Example.on 0 (Delay 10) [ControlChannel 0]].

(** Every time slot that the library builds begins at a time that is
    not negative. *)
Definition well_timed (s : Schedule) : Prop :=
  Forall (fun ti => 0 <= start_of ti) (instructions s).

(** The library accepts the pulses of duration [duration]: the CR pulse
    of amplitude [cr_amp] and the cancellation command, whose duration
    is not negative. *)
Definition pulses_accepted
  (gaussian_square : Z -> num -> float -> Z -> result (list sample))
  (cr_amp : num) (sigma : float) (risefall : Z)
  (cancellation_amp : option num) (sign : num -> num) (duration : Z) : Prop :=
  (exists samples, gaussian_square duration (sign cr_amp) sigma risefall = Ok samples) /\
  exists cmd,
    cancellation_command gaussian_square cancellation_amp sign duration sigma risefall
    = Ok cmd /\
    0 <= command_duration cmd.

(** The latest stop time of a list of timed instructions, 0 when there
    is none: the duration of a schedule that holds them. *)
Definition last_stop (l : list timed) : Z := duration (mkSchedule VNone l).

(** The time slots the library builds: an instruction begins at a time
    that is not negative and does not stop before it begins. *)
Definition proper (s : Schedule) : Prop :=
  Forall (fun ti => 0 <= start_of ti <= stop_of ti) (instructions s).

(** The delay before the measurement in the three basis schedules. *)
Definition proj_delay_of (xproj_sched yproj_sched : Schedule) (buffer : Z) : Z :=
  Z.max (duration xproj_sched) (duration yproj_sched) + buffer.

(** The keyword parameters of the two basis rotations. *)
Definition x_params : params := [("P0", PyInt 0); ("P1", PyFloat pi)].
Definition y_params : params :=
  [("P0", PyInt 0); ("P1", PyFloat (PrimFloat.mul 0.5%float pi))].

(** [int(0.5 * d)] is the quotient of [d] by 2 rounded towards zero. *)
Definition half_truncates (d : Z) : bool :=
  match half_of d with
  | Ok h => h =? Z.quot d 2
  | Raise _ => false
  end.

(** [half_truncates] for [d], [-d] and the [n - 1] integers after each. *)
Fixpoint half_truncates_from (n : nat) (d : Z) : bool :=
  match n with
  | O => true
  | S n' => half_truncates d && half_truncates (- d) && half_truncates_from n' (d + 1)
  end.

(** A command definition with a [cx] for the indices -1 and 1. *)
Definition negative_index_cmd_def : CmdDef :=
  Example.cmd_def_with (fun qubits =>
    match qubits with
    | [-1; 1] => Some (Example.cx_gate 1 1 0)
    | _ => None
    end).

(** The example command definition without the [x] of qubit 0. *)
Definition no_flip_cmd_def : CmdDef :=
  fun cmd_name qubits p =>
    if String.eqb cmd_name "x" then None else Example.cmd_def cmd_name qubits p.

(** A hand-made Rabi schedule named by the integer 0, without any
    instruction. *)
Definition rabi_empty : Schedule := empty (VInt 0).

(** No two instructions of the list collide: the earlier one of a pair
    does not overlap the later one on a channel they share. *)
Definition collision_free (l : list timed) : Prop :=
  ForallOrdPairs (fun a b => overlaps a b = false) l.

(** What the library must accept for a cancellation command of duration
    [d] to be played: the flat-top pulse of amplitude [sign amp] when
    the amplitude counts as given, a delay that is not negative
    otherwise. *)
Definition cancellation_accepted
  (gaussian_square : Z -> num -> float -> Z -> result (list sample))
  (cancellation_amp : option num) (sign : num -> num) (sigma : float)
  (risefall : Z) (d : Z) : Prop :=
  match cancellation_amp with
  | Some amp =>
      if num_truthy amp
      then exists samples, gaussian_square d (sign amp) sigma risefall = Ok samples
      else 0 <= d
  | None => 0 <= d
  end.

(** A second backend with the [cx] of the pair (0, 1) and two qubits,
    and nothing else in common with the example backend. *)
Definition bare_backend : Backend :=
  mkBackend (fun cmd_name qubits p =>
               if String.eqb cmd_name "cx" then Example.cx_table qubits else None)
    7 1%float [] 2.

(** The instructions of the measurement schedule of basis [b] of
    (x, y, z), as the wrapper builds it from the calibrated schedules:
    the rotation, if any, and the measurement delayed by the projection
    delay. *)
Definition basis_measurement (xproj_sched yproj_sched measure : Schedule)
  (buffer : Z) (b : nat) : list timed :=
  let delayed :=
    shift_timed (proj_delay_of xproj_sched yproj_sched buffer)
      (instructions measure) in
  match b with
  | O => instructions xproj_sched ++ delayed
  | S O => instructions yproj_sched ++ delayed
  | _ => delayed
  end.

(** A [cx] with equal pulses at time 0 on two control channels, the
    one of higher index written first. *)
Definition two_control_cx : Schedule :=
  mkSchedule (VStr "cx")
    [Example.on 0 (Example.flat 4) [ControlChannel 1];
     Example.on 0 (Example.flat 4) [ControlChannel 0];
     Example.on 4 (Example.flat 6) [DriveChannel 1]].

(** ** The error monad and the loops *)

Lemma bind_Ok_inv {A B : Type} (m : result A) (k : A -> result B) (b : B) :
  bind m k = Ok b -> exists a, m = Ok a /\ k a = Ok b.
Proof.
  destruct m as [a | e]; simpl; intros H.
  - exists a. split; [reflexivity | exact H].
  - discriminate H.
Qed.

Ltac bind_inv H :=
  let x := fresh "x" in
  let E := fresh "E" in
  apply bind_Ok_inv in H as (x & E & H).

Lemma for_each_ext {A S : Type} (f g : A -> S -> result S) (l : list A) :
  (forall x s, f x s = g x s) ->
  forall s, for_each l f s = for_each l g s.
Proof.
  intros Hfg. induction l as [| x xs IH]; intros s; simpl.
  - reflexivity.
  - rewrite Hfg. destruct (g x s) as [s' | e]; simpl; [apply IH | reflexivity].
Qed.

(** A loop whose body appends what [g] computes for the element
    collects these lists in order. *)
Lemma for_each_append {A B : Type} (g : A -> result (list B))
  (body : A -> list B -> result (list B)) (l : list A) :
  (forall x s, body x s = (ys <- g x ;; Ok (s ++ ys))) ->
  forall s,
    for_each l body s = (yss <- map_each g l ;; Ok (s ++ concat yss)).
Proof.
  intros Hbody. induction l as [| x xs IH]; intros s; simpl.
  - rewrite app_nil_r. reflexivity.
  - rewrite Hbody. destruct (g x) as [ys | e]; simpl; [| reflexivity].
    rewrite IH. destruct (map_each g xs) as [yss | e]; simpl; [| reflexivity].
    rewrite app_assoc. reflexivity.
Qed.

Lemma map_each_Forall2 {A B : Type} (f : A -> result B) (l : list A) (ys : list B) :
  map_each f l = Ok ys -> Forall2 (fun x y => f x = Ok y) l ys.
Proof.
  revert ys. induction l as [| x xs IH]; intros ys H; simpl in H.
  - injection H as <-. constructor.
  - apply bind_Ok_inv in H as (y & Hy & H).
    apply bind_Ok_inv in H as (ys' & Hys & H).
    injection H as <-. constructor; [exact Hy | apply IH, Hys].
Qed.

Lemma Forall2_nth_error_l {A B : Type} (R : A -> B -> Prop) (l : list A) (l' : list B) :
  Forall2 R l l' ->
  forall i x, nth_error l i = Some x -> exists y, nth_error l' i = Some y /\ R x y.
Proof.
  induction 1 as [| a b l l' Hab _ IH]; intros i x Hi.
  - destruct i; discriminate Hi.
  - destruct i as [| i]; simpl in Hi.
    + injection Hi as <-. exists b. split; [reflexivity | exact Hab].
    + apply IH, Hi.
Qed.

(** ** Channel resolution *)

Lemma in_insert_by_key (a x : timed) (l : list timed) :
  In x (insert_by_key a l) -> x = a \/ In x l.
Proof.
  induction l as [| b l IH]; simpl; intros H.
  - destruct H as [<- | []]. left. reflexivity.
  - destruct (key_leb a b).
    + destruct H as [<- | H]; [left; reflexivity | right; exact H].
    + destruct H as [<- | H]; [right; left; reflexivity |].
      destruct (IH H) as [-> | Hx]; [left; reflexivity | right; right; exact Hx].
Qed.

Lemma in_sorted_instructions (s : Schedule) (x : timed) :
  In x (sorted_instructions s) -> In x (instructions s).
Proof.
  unfold sorted_instructions.
  induction (instructions s) as [| a l IH]; simpl; intros H.
  - contradiction.
  - apply in_insert_by_key in H as [-> | H];
      [left; reflexivity | right; apply IH, H].
Qed.

Lemma find_none_iff (l : list Channel) :
  (forall ch, In ch l -> is_ControlChannel ch = false) ->
  find is_ControlChannel l = None.
Proof.
  induction l as [| c cs IH]; intros H; simpl.
  - reflexivity.
  - rewrite (H c (or_introl eq_refl)). apply IH.
    intros ch Hch. apply H. right. exact Hch.
Qed.

Lemma find_control (l : list Channel) :
  (exists ch, In ch l /\ is_ControlChannel ch = true) ->
  exists u, find is_ControlChannel l = Some (ControlChannel u) /\
            In (ControlChannel u) l.
Proof.
  intros (ch & Hin & Hch).
  destruct (find is_ControlChannel l) as [c |] eqn:E.
  - apply find_some in E as [Hc Hk]. destruct c as [i | u | i | i | i];
      try discriminate Hk.
    exists u. split; [reflexivity | exact Hc].
  - exfalso. apply (find_none _ _ E) in Hin. congruence.
Qed.

Lemma qubit_drive_in_range (backend : Backend) (q : Z) :
  0 <= q < n_qubits backend -> qubit_drive backend q = Ok (DriveChannel q).
Proof.
  intros Hq. unfold qubit_drive.
  replace (q <? 0) with false by (symmetry; apply Z.ltb_ge; lia).
  replace (0 <=? q) with true by (symmetry; apply Z.leb_le; lia).
  replace (q <? Z.max 0 (n_qubits backend)) with true
    by (symmetry; apply Z.ltb_lt; lia).
  reflexivity.
Qed.

Lemma get_channels_no_cx (c_qubit t_qubit : Z) (backend : Backend)
  (cmd_def : option CmdDef) :
  resolve_cmd_def backend cmd_def "cx" [c_qubit; t_qubit] [] = None ->
  _get_channels c_qubit t_qubit backend cmd_def
  = Raise (CharacterizationError (cross_resonance_not_defined c_qubit t_qubit)).
Proof.
  intros H. unfold _get_channels, get. rewrite H. reflexivity.
Qed.

(** C6: when the command definition has no [cx] for the pair, channel
    resolution raises the characterization error whose message names
    the two qubits, and so do both Rabi builders: the result is the
    exception, no times and no schedules. *)
Theorem no_cx_is_a_characterization_error :
  forall gaussian_square c_qubit t_qubit backend cmd_def,
    resolve_cmd_def backend cmd_def "cx" [c_qubit; t_qubit] [] = None ->
    let e := CharacterizationError
               (String.append "Cross resonance is not defined for qubits "
                  (String.append (str_of_int c_qubit)
                     (String.append "-" (String.append (str_of_int t_qubit) ".")))) in
    _get_channels c_qubit t_qubit backend cmd_def = Raise e /\
    forall cr_samples cr_amp sigma risefall cancellation_amp,
      cr1_rabi_schedules gaussian_square c_qubit t_qubit backend cr_samples
        cr_amp sigma risefall cancellation_amp cmd_def = Raise e /\
      cr2_rabi_schedules gaussian_square c_qubit t_qubit backend cr_samples
        cr_amp sigma risefall cancellation_amp cmd_def = Raise e.
Proof.
  intros gs c t backend cmd_def H e. split.
  - apply get_channels_no_cx, H.
  - intros. unfold cr1_rabi_schedules, cr2_rabi_schedules.
    rewrite (get_channels_no_cx c t backend (Some (resolve_cmd_def backend cmd_def)) H).
    split; reflexivity.
Qed.

Lemma no_cx_is_a_characterization_error_witness :
  let e := CharacterizationError "Cross resonance is not defined for qubits 1-0." in
  _get_channels 1 0 Example.backend None = Raise e /\
  cr1_rabi_schedules Example.gaussian_square 1 0 Example.backend [10; 20]
    (PyFloat 0.25%float) 2%float 2 None None = Raise e /\
  cr2_rabi_schedules Example.gaussian_square 1 0 Example.backend [10; 20]
    (PyFloat 0.25%float) 2%float 2 None None = Raise e.
Proof.
  pose proof (no_cx_is_a_characterization_error Example.gaussian_square
                1 0 Example.backend None eq_refl) as H.
  cbv zeta in H. destruct H as [Hget Hbuild].
  split; [exact Hget |].
  exact (Hbuild [10; 20] (PyFloat 0.25%float) 2%float 2 None).
Defined.

(** C7: when the [cx] of the pair, filtered to pulse instructions, plays
    on no control channel, channel resolution raises the "no valid
    control channel" characterization error; no channel is returned. *)
Theorem no_control_channel_is_a_characterization_error :
  forall c_qubit t_qubit backend cmd_def cx_ref,
    resolve_cmd_def backend cmd_def "cx" [c_qubit; t_qubit] [] = Some cx_ref ->
    (forall ch, In ch (channels (filter_pulse cx_ref)) ->
                is_ControlChannel ch = false) ->
    _get_channels c_qubit t_qubit backend cmd_def
    = Raise (CharacterizationError
               "No valid control channel to drive cross resonance.").
Proof.
  intros c t backend cmd_def cx_ref Hcx Hnone.
  unfold _get_channels, get. rewrite Hcx. simpl.
  rewrite (find_none_iff _ Hnone). reflexivity.
Qed.

Lemma no_control_channel_is_a_characterization_error_witness :
  _get_channels 0 1 Example.backend
    (Some (Example.cmd_def_with (fun _ => Some (Example.cx_without_drive 0 1 0))))
  = Raise (CharacterizationError
             "No valid control channel to drive cross resonance.").
Proof.
  apply (no_control_channel_is_a_characterization_error 0 1 Example.backend
           (Some (Example.cmd_def_with (fun _ => Some (Example.cx_without_drive 0 1 0))))
           (Example.cx_without_drive 0 1 0)).
  - reflexivity.
  - intros ch H. vm_compute in H.
    destruct H as [<- | [<- | []]]; reflexivity.
Defined.

(** With the same index for control and target, and a [cx] defined for
    it that plays on a control channel, the control drive and the target
    drive that channel resolution returns are one channel. *)
Lemma same_qubit_same_drive :
  self_cx_cmd_def "cx" [0; 0] [] = Some (Example.cx_gate 0 0 0) /\
  In (ControlChannel 0) (channels (filter_pulse (Example.cx_gate 0 0 0))) /\
  exists c_drive t_drive cr_drive,
    _get_channels 0 0 Example.backend (Some self_cx_cmd_def)
    = Ok (c_drive, t_drive, cr_drive) /\ c_drive = t_drive.
Proof.
  split; [reflexivity |]. split; [vm_compute; tauto |].
  exists (DriveChannel 0), (DriveChannel 0), (ControlChannel 0).
  split; reflexivity.
Qed.

(** An index that is not a qubit of the backend ends channel resolution
    with an [IndexError], whatever the command definition says. *)
Lemma get_channels_index_error :
  _get_channels 0 2 Example.backend
    (Some (Example.cmd_def_with (fun _ => Some (Example.cx_gate 0 2 0))))
  = Raise IndexError.
Proof. reflexivity. Qed.

(** The control channel chosen is the first in the order of the sorted
    instructions: of two equal pulses at one time, the one on the
    channel of lower index. *)
Lemma get_channels_first_by_key :
  _get_channels 0 1 Example.backend
    (Some (Example.cmd_def_with (fun _ => Some two_control_cx)))
  = Ok (DriveChannel 0, DriveChannel 1, ControlChannel 0).
Proof. reflexivity. Qed.

(** What channel resolution reads of its arguments: the [cx] entry of
    the pair in the resolved command definition and the number of
    qubits of the backend.  Two calls that agree on these return equal
    results, an equal exception included. *)
Lemma get_channels_reads c_qubit t_qubit backend cmd_def backend' cmd_def' :
  resolve_cmd_def backend' cmd_def' "cx" [c_qubit; t_qubit] []
  = resolve_cmd_def backend cmd_def "cx" [c_qubit; t_qubit] [] ->
  n_qubits backend' = n_qubits backend ->
  _get_channels c_qubit t_qubit backend' cmd_def'
  = _get_channels c_qubit t_qubit backend cmd_def.
Proof.
  intros Hcx Hn. unfold _get_channels, get, qubit_drive. rewrite Hcx, Hn.
  reflexivity.
Qed.

Lemma qubit_drive_wraps (backend : Backend) (q : Z) :
  - n_qubits backend <= q < n_qubits backend ->
  qubit_drive backend q = Ok (DriveChannel (q mod n_qubits backend)).
Proof.
  intros Hq. unfold qubit_drive.
  replace (Z.max 0 (n_qubits backend)) with (n_qubits backend) by lia.
  destruct (Z.ltb_spec q 0).
  - replace (q mod n_qubits backend) with (q + n_qubits backend)
      by (apply (Z.mod_unique _ _ (-1)); lia).
    replace (0 <=? q + n_qubits backend) with true
      by (symmetry; apply Z.leb_le; lia).
    replace (q + n_qubits backend <? n_qubits backend) with true
      by (symmetry; apply Z.ltb_lt; lia).
    reflexivity.
  - rewrite Z.mod_small by lia.
    replace (0 <=? q) with true by (symmetry; apply Z.leb_le; lia).
    replace (q <? n_qubits backend) with true by (symmetry; apply Z.ltb_lt; lia).
    reflexivity.
Qed.

(** C8: for a pair of indices that address two different qubits of the
    backend (an index from [-n_qubits] on counts from the end, as in a
    Python list) and whose [cx], filtered to pulse instructions, plays
    on a control channel, channel resolution returns the drive channel
    of the control qubit, the drive channel of the target qubit and the
    first control channel of the filtered [cx]; the three are pairwise
    different.  Two calls whose backends and command definitions agree
    on what is read, the [cx] entry of the pair and the number of
    qubits, return equal results: the second call may differ in every
    other entry, in the buffer, in [dt] and in the measurement map. *)
Theorem get_channels_of_a_qubit_pair :
  forall c_qubit t_qubit backend cmd_def cx_ref,
    - n_qubits backend <= c_qubit < n_qubits backend ->
    - n_qubits backend <= t_qubit < n_qubits backend ->
    c_qubit mod n_qubits backend <> t_qubit mod n_qubits backend ->
    resolve_cmd_def backend cmd_def "cx" [c_qubit; t_qubit] [] = Some cx_ref ->
    (exists ch, In ch (channels (filter_pulse cx_ref)) /\
                is_ControlChannel ch = true) ->
    (exists c_drive t_drive cr_drive,
       _get_channels c_qubit t_qubit backend cmd_def
       = Ok (c_drive, t_drive, cr_drive) /\
       c_drive = DriveChannel (c_qubit mod n_qubits backend) /\
       t_drive = DriveChannel (t_qubit mod n_qubits backend) /\
       find is_ControlChannel (channels (filter_pulse cx_ref)) = Some cr_drive /\
       is_ControlChannel cr_drive = true /\
       c_drive <> t_drive /\ c_drive <> cr_drive /\ t_drive <> cr_drive) /\
    forall backend' cmd_def',
      resolve_cmd_def backend' cmd_def' "cx" [c_qubit; t_qubit] [] = Some cx_ref ->
      n_qubits backend' = n_qubits backend ->
      _get_channels c_qubit t_qubit backend' cmd_def'
      = _get_channels c_qubit t_qubit backend cmd_def.
Proof.
  intros c t backend cmd_def cx_ref Hc Ht Hne Hcx Hctl. split.
  - destruct (find_control _ Hctl) as (u & Hfind & _).
    exists (DriveChannel (c mod n_qubits backend)),
           (DriveChannel (t mod n_qubits backend)), (ControlChannel u).
    split.
    + unfold _get_channels, get. rewrite Hcx. simpl. rewrite Hfind. simpl.
      rewrite (qubit_drive_wraps backend c Hc), (qubit_drive_wraps backend t Ht).
      reflexivity.
    + repeat split; try reflexivity; try exact Hfind; try discriminate.
      intros H. injection H as H. contradiction.
  - intros backend' cmd_def' Hcx' Hn.
    apply get_channels_reads; [rewrite Hcx', Hcx; reflexivity | exact Hn].
Qed.

Lemma get_channels_of_a_qubit_pair_witness :
  _get_channels 0 1 Example.backend None
  = Ok (DriveChannel 0, DriveChannel 1, ControlChannel 0) /\
  _get_channels 0 1 bare_backend None = _get_channels 0 1 Example.backend None.
Proof.
  destruct (get_channels_of_a_qubit_pair 0 1 Example.backend None
              (Example.cx_gate 0 1 0))
    as [(c_drive & t_drive & cr_drive & Hget & -> & -> & Hfind & _) Hsame].
  - simpl. lia.
  - simpl. lia.
  - discriminate.
  - reflexivity.
  - exists (ControlChannel 0). split; [vm_compute; tauto | reflexivity].
  - split.
    + rewrite Hget. vm_compute in Hfind. injection Hfind as <-. reflexivity.
    + apply Hsame; reflexivity.
Defined.

(** ** The Rabi builders *)

Section BuilderFacts.

Variable gaussian_square : Z -> num -> float -> Z -> result (list sample).

Lemma cr1_body_appends_fresh t_drive cr_drive cr_amp sigma risefall cancellation_amp :
  appends_fresh (cr1_body gaussian_square t_drive cr_drive cr_amp sigma risefall
                   cancellation_amp).
Proof.
  intros [index cr_sample] acc acc' H. unfold cr1_body in H.
  do 6 bind_inv H. injection H as <-. reflexivity.
Qed.

Lemma cr2_body_appends_fresh t_drive cr_drive echo_pi buffer cr_amp sigma risefall
  cancellation_amp :
  appends_fresh (cr2_body gaussian_square t_drive cr_drive echo_pi buffer cr_amp
                   sigma risefall cancellation_amp).
Proof.
  intros [index cr_sample] acc acc' H. unfold cr2_body in H.
  do 15 bind_inv H. injection H as <-. reflexivity.
Qed.

Lemma for_each_appends_fresh body (l : list Z) :
  appends_fresh body ->
  forall i acc out,
    for_each (enumerate_from i l) body acc = Ok out ->
    out = acc ++ map (fun item => empty (VStr (str_of_int (fst item))))
                   (enumerate_from i l).
Proof.
  intros Hbody. induction l as [| x xs IH]; intros i acc out H; simpl in H.
  - injection H as <-. simpl. rewrite app_nil_r. reflexivity.
  - bind_inv H. apply Hbody in E. subst x0.
    apply IH in H. subst out. simpl. rewrite <- app_assoc. reflexivity.
Qed.

Lemma enumerate_from_length {A : Type} (l : list A) (i : Z) :
  length (enumerate_from i l) = length l.
Proof.
  revert i. induction l as [| x xs IH]; intros i; simpl;
    [reflexivity | rewrite IH; reflexivity].
Qed.

Lemma enumerate_from_nth_error {A : Type} (l : list A) (i : Z) (k : nat) item :
  nth_error (enumerate_from i l) k = Some item ->
  fst item = i + Z.of_nat k.
Proof.
  revert i k. induction l as [| x xs IH]; intros i k H.
  - destruct k; discriminate H.
  - destruct k as [| k]; simpl in H.
    + injection H as <-. simpl. lia.
    + apply IH in H. lia.
Qed.

(** The schedules a builder loop returns: one per duration, the [i]-th
    named by [i] and without any instruction. *)
Lemma builder_loop_result body (cr_samples : list Z) (schedules : list Schedule) :
  appends_fresh body ->
  for_each (enumerate cr_samples) body [] = Ok schedules ->
  length schedules = length cr_samples /\
  forall i sched,
    nth_error schedules i = Some sched ->
    name sched = VStr (str_of_int (Z.of_nat i)) /\
    instructions sched = [] /\
    duration sched = 0.
Proof.
  intros Hbody H. apply (for_each_appends_fresh body cr_samples Hbody) in H.
  simpl in H. subst schedules. split.
  - rewrite length_map. apply enumerate_from_length.
  - intros i sched Hi. rewrite nth_error_map in Hi.
    destruct (nth_error (enumerate_from 0 cr_samples) i) as [item |] eqn:E;
      [| discriminate Hi].
    injection Hi as <-. apply enumerate_from_nth_error in E.
    rewrite E. repeat split.
Qed.

Lemma cr_times_of_spec (cr_samples : list Z) (backend : Backend) (cr_times : list float) :
  cr_times_of cr_samples backend = Ok cr_times ->
  Forall2 (fun cr_sample time =>
             exists x, float_of_int cr_sample = Ok x /\
                       time = PrimFloat.mul (PrimFloat.mul x (dt backend)) nano)
          cr_samples cr_times.
Proof.
  unfold cr_times_of. intros H. bind_inv H. injection H as <-.
  apply map_each_Forall2 in E. induction E as [| d x l l' Hd _ IH]; simpl.
  - constructor.
  - constructor; [exists x; split; [exact Hd | reflexivity] | exact IH].
Qed.

Lemma cr1_rabi_schedules_inv c_qubit t_qubit backend cr_samples cr_amp sigma risefall
  cancellation_amp cmd_def cr_times schedules :
  cr1_rabi_schedules gaussian_square c_qubit t_qubit backend cr_samples cr_amp
    sigma risefall cancellation_amp cmd_def = Ok (cr_times, schedules) ->
  exists t_drive cr_drive,
    for_each (enumerate cr_samples)
      (cr1_body gaussian_square t_drive cr_drive cr_amp sigma risefall
         cancellation_amp) [] = Ok schedules /\
    cr_times_of cr_samples backend = Ok cr_times.
Proof.
  unfold cr1_rabi_schedules. intros H. bind_inv H.
  destruct x as [[c_drive t_drive] cr_drive]. do 2 bind_inv H.
  injection H as <- <-. exists t_drive, cr_drive. split; assumption.
Qed.

Lemma cr2_rabi_schedules_inv c_qubit t_qubit backend cr_samples cr_amp sigma risefall
  cancellation_amp cmd_def cr_times schedules :
  cr2_rabi_schedules gaussian_square c_qubit t_qubit backend cr_samples cr_amp
    sigma risefall cancellation_amp cmd_def = Ok (cr_times, schedules) ->
  exists t_drive cr_drive echo_pi,
    for_each (enumerate cr_samples)
      (cr2_body gaussian_square t_drive cr_drive echo_pi (buffer backend) cr_amp
         sigma risefall cancellation_amp) [] = Ok schedules /\
    cr_times_of cr_samples backend = Ok cr_times.
Proof.
  unfold cr2_rabi_schedules. intros H. bind_inv H.
  destruct x as [[c_drive t_drive] cr_drive]. do 3 bind_inv H.
  injection H as <- <-. exists t_drive, cr_drive, x. split; assumption.
Qed.

Lemma cancellation_command_falsy cancellation_amp sign duration sigma risefall :
  truthy cancellation_amp = false ->
  cancellation_command gaussian_square cancellation_amp sign duration sigma risefall
  = Ok (Delay duration).
Proof.
  intros H. destruct cancellation_amp as [amp |]; simpl in *;
    [rewrite H |]; reflexivity.
Qed.

(** A cancellation amplitude that is false in a condition builds what no
    cancellation amplitude builds. *)
Lemma falsy_cancellation_amp c_qubit t_qubit backend cr_samples cr_amp sigma risefall
  cancellation_amp cmd_def :
  truthy cancellation_amp = false ->
  cr1_rabi_schedules gaussian_square c_qubit t_qubit backend cr_samples cr_amp
    sigma risefall cancellation_amp cmd_def
  = cr1_rabi_schedules gaussian_square c_qubit t_qubit backend cr_samples cr_amp
      sigma risefall None cmd_def /\
  cr2_rabi_schedules gaussian_square c_qubit t_qubit backend cr_samples cr_amp
    sigma risefall cancellation_amp cmd_def
  = cr2_rabi_schedules gaussian_square c_qubit t_qubit backend cr_samples cr_amp
      sigma risefall None cmd_def.
Proof.
  intros H. unfold cr1_rabi_schedules, cr2_rabi_schedules. split.
  - destruct (_get_channels _ _ _ _) as [[[c_drive t_drive] cr_drive] | e];
      simpl; [| reflexivity].
    rewrite (for_each_ext
               (cr1_body gaussian_square t_drive cr_drive cr_amp sigma risefall
                  cancellation_amp)
               (cr1_body gaussian_square t_drive cr_drive cr_amp sigma risefall None)).
    + reflexivity.
    + intros [index cr_sample] acc. unfold cr1_body.
      destruct (gaussian_square _ _ _ _); simpl; [| reflexivity].
      rewrite (cancellation_command_falsy _ _ _ _ _ H). reflexivity.
  - destruct (_get_channels _ _ _ _) as [[[c_drive t_drive] cr_drive] | e];
      simpl; [| reflexivity].
    destruct (get _ _ _ _) as [echo_pi | e]; simpl; [| reflexivity].
    rewrite (for_each_ext
               (cr2_body gaussian_square t_drive cr_drive echo_pi (buffer backend)
                  cr_amp sigma risefall cancellation_amp)
               (cr2_body gaussian_square t_drive cr_drive echo_pi (buffer backend)
                  cr_amp sigma risefall None)).
    + reflexivity.
    + intros [index cr_sample] acc. unfold cr2_body.
      destruct (half_of _) as [half_cr_sample | e]; simpl; [| reflexivity].
      destruct (gaussian_square _ cr_amp _ _); simpl; [| reflexivity].
      destruct (gaussian_square _ (neg cr_amp) _ _); simpl; [| reflexivity].
      rewrite (cancellation_command_falsy _ _ _ _ _ H). simpl.
      rewrite (cancellation_command_falsy _ _ _ _ _ H). reflexivity.
Qed.

End BuilderFacts.

(** C1: whenever [cr1_rabi_schedules] returns, it returns one schedule
    per requested duration, the [i]-th named by [i]; every one of them
    is the schedule created at the top of the loop body, without any
    instruction and of total duration 0, whatever the requested
    duration and the cancellation amplitude. *)
Theorem cr1_rabi_schedules_are_empty :
  forall gaussian_square c_qubit t_qubit backend cr_samples cr_amp sigma risefall
         cancellation_amp cmd_def cr_times schedules,
    cr1_rabi_schedules gaussian_square c_qubit t_qubit backend cr_samples cr_amp
      sigma risefall cancellation_amp cmd_def = Ok (cr_times, schedules) ->
    length schedules = length cr_samples /\
    forall i sched,
      nth_error schedules i = Some sched ->
      name sched = VStr (str_of_int (Z.of_nat i)) /\
      instructions sched = [] /\
      duration sched = 0.
Proof.
  intros gs c t backend cr_samples cr_amp sigma risefall camp cmd_def cr_times
    schedules H.
  apply cr1_rabi_schedules_inv in H as (t_drive & cr_drive & Hloop & _).
  apply (builder_loop_result _ _ _ (cr1_body_appends_fresh gs _ _ _ _ _ _) Hloop).
Qed.

(** Without a cancellation amplitude two schedules come back, both of
    duration 0. *)
Lemma cr1_rabi_schedules_are_empty_witness :
  exists cr_times sched0 sched1,
    cr1_example None = Ok (cr_times, [sched0; sched1]) /\
    (duration sched0 = 0 /\ duration sched0 <> 10) /\
    (duration sched1 = 0 /\ duration sched1 <> 20).
Proof.
  assert (exists cr_times sched0 sched1,
             cr1_example None = Ok (cr_times, [sched0; sched1]))
    as (cr_times & s0 & s1 & E).
  { vm_compute. eauto. }
  exists cr_times, s0, s1. split; [exact E |].
  destruct (cr1_rabi_schedules_are_empty _ _ _ _ _ _ _ _ _ _ _ _ E) as [_ Hall].
  destruct (Hall 0%nat s0 eq_refl) as (_ & _ & H0).
  destruct (Hall 1%nat s1 eq_refl) as (_ & _ & H1).
  rewrite H0, H1. repeat split; discriminate.
Defined.

(** With the cancellation amplitude 0.125 the result is the same. *)
Lemma cr1_example_with_cancellation :
  cr1_example (Some (PyFloat 0.125%float)) = cr1_example None.
Proof. vm_compute. reflexivity. Qed.

(** C3: whenever [cr2_rabi_schedules] returns, it returns one schedule
    per requested duration, the [i]-th named by [i]; every one of them
    is the schedule created at the top of the loop body, without any
    instruction and of total duration 0, whatever the requested
    duration, the buffer and the duration of the flip. *)
Theorem cr2_rabi_schedules_are_empty :
  forall gaussian_square c_qubit t_qubit backend cr_samples cr_amp sigma risefall
         cancellation_amp cmd_def cr_times schedules,
    cr2_rabi_schedules gaussian_square c_qubit t_qubit backend cr_samples cr_amp
      sigma risefall cancellation_amp cmd_def = Ok (cr_times, schedules) ->
    length schedules = length cr_samples /\
    forall i sched,
      nth_error schedules i = Some sched ->
      name sched = VStr (str_of_int (Z.of_nat i)) /\
      instructions sched = [] /\
      duration sched = 0.
Proof.
  intros gs c t backend cr_samples cr_amp sigma risefall camp cmd_def cr_times
    schedules H.
  apply cr2_rabi_schedules_inv in H as (t_drive & cr_drive & echo_pi & Hloop & _).
  apply (builder_loop_result _ _ _
           (cr2_body_appends_fresh gs _ _ _ _ _ _ _ _) Hloop).
Qed.

(** Duration 10 on the example backend, whose buffer is 2 and whose flip
    lasts 4 samples: the schedule that comes back has duration 0, not
    2 * 5 + 2 * 2 + 2 * 4. *)
Lemma cr2_rabi_schedules_are_empty_witness :
  exists cr_times sched,
    cr2_rabi_schedules Example.gaussian_square 0 1 Example.backend [10]
      (PyFloat 0.25%float) 2%float 2 None None
    = Ok (cr_times, [sched]) /\
    buffer Example.backend = 2 /\
    duration (Example.x_gate 0) = 4 /\
    duration sched = 0 /\
    duration sched <> 2 * (10 / 2) + 2 * 2 + 2 * 4.
Proof.
  assert (exists cr_times sched,
             cr2_rabi_schedules Example.gaussian_square 0 1 Example.backend [10]
               (PyFloat 0.25%float) 2%float 2 None None
             = Ok (cr_times, [sched])) as (cr_times & s & E).
  { vm_compute. eauto. }
  exists cr_times, s. split; [exact E |].
  destruct (cr2_rabi_schedules_are_empty _ _ _ _ _ _ _ _ _ _ _ _ E) as [_ Hall].
  destruct (Hall 0%nat s eq_refl) as (_ & _ & H0).
  rewrite H0. repeat split; discriminate.
Defined.

(** The times that [cr1_rabi_schedules] returns for the durations 10 and
    20 on the example backend, whose [dt] is 0.5, are not 10 * 0.5 and
    20 * 0.5. *)
Lemma cr_times_are_not_samples_times_dt :
  exists cr_times schedules,
    cr1_rabi_schedules Example.gaussian_square 0 1 Example.backend [10; 20]
      (PyFloat 0.25%float) 2%float 2 None None
    = Ok (cr_times, schedules) /\
    ~ Forall2 (fun cr_sample time =>
                 exists x, float_of_int cr_sample = Ok x /\
                           time = PrimFloat.mul x (dt Example.backend))
        [10; 20] cr_times.
Proof.
  eexists. eexists. split; [vm_compute; reflexivity |].
  intros H. inversion H as [| d time l l' (x & Hx & Htime) _]; subst.
  vm_compute in Hx. injection Hx as <-.
  apply (f_equal (fun v => PrimFloat.eqb v 5%float)) in Htime.
  vm_compute in Htime. discriminate Htime.
Qed.

(** C9: the times that either builder returns are, position by
    position, the requested durations converted to floats, multiplied by
    the backend's [dt] and then by [1e-9]. *)
Theorem cr_times_are_samples_times_dt_nano :
  forall gaussian_square c_qubit t_qubit backend cr_samples cr_amp sigma risefall
         cancellation_amp cmd_def cr_times schedules,
    cr1_rabi_schedules gaussian_square c_qubit t_qubit backend cr_samples cr_amp
      sigma risefall cancellation_amp cmd_def = Ok (cr_times, schedules) \/
    cr2_rabi_schedules gaussian_square c_qubit t_qubit backend cr_samples cr_amp
      sigma risefall cancellation_amp cmd_def = Ok (cr_times, schedules) ->
    Forall2 (fun cr_sample time =>
               exists x, float_of_int cr_sample = Ok x /\
                         time = PrimFloat.mul (PrimFloat.mul x (dt backend))
                                  0x1.12e0be826d695p-30%float)
            cr_samples cr_times.
Proof.
  intros gs c t backend cr_samples cr_amp sigma risefall camp cmd_def cr_times
    schedules [H | H].
  - apply cr1_rabi_schedules_inv in H as (_ & _ & _ & H).
    apply cr_times_of_spec, H.
  - apply cr2_rabi_schedules_inv in H as (_ & _ & _ & _ & H).
    apply cr_times_of_spec, H.
Qed.

Lemma cr_times_are_samples_times_dt_nano_witness :
  exists cr_times schedules,
    cr2_rabi_schedules Example.gaussian_square 0 1 Example.backend [10; 20]
      (PyFloat 0.25%float) 2%float 2 None None
    = Ok (cr_times, schedules) /\
    Forall2 (fun cr_sample time =>
               exists x, float_of_int cr_sample = Ok x /\
                         time = PrimFloat.mul (PrimFloat.mul x 0.5%float)
                                  0x1.12e0be826d695p-30%float)
            [10; 20] cr_times.
Proof.
  assert (exists cr_times schedules,
             cr2_rabi_schedules Example.gaussian_square 0 1 Example.backend [10; 20]
               (PyFloat 0.25%float) 2%float 2 None None
             = Ok (cr_times, schedules)) as (cr_times & schedules & E).
  { vm_compute. eauto. }
  exists cr_times, schedules. split; [exact E |].
  apply (cr_times_are_samples_times_dt_nano Example.gaussian_square 0 1
           Example.backend [10; 20] (PyFloat 0.25%float) 2%float 2 None None
           cr_times schedules).
  right. exact E.
Defined.

(** With a cancellation amplitude of [0], [0.0] or [0j] both builders
    return what they return without a cancellation amplitude, and the
    cancellation command they build for a duration is the delay of that
    duration, as without a cancellation amplitude. *)
Lemma zero_cancellation_amp_is_none :
  forall gaussian_square c_qubit t_qubit backend cr_samples cr_amp sigma risefall
         cmd_def,
    Forall (fun zero =>
      cr1_rabi_schedules gaussian_square c_qubit t_qubit backend cr_samples cr_amp
        sigma risefall (Some zero) cmd_def
      = cr1_rabi_schedules gaussian_square c_qubit t_qubit backend cr_samples cr_amp
          sigma risefall None cmd_def /\
      cr2_rabi_schedules gaussian_square c_qubit t_qubit backend cr_samples cr_amp
        sigma risefall (Some zero) cmd_def
      = cr2_rabi_schedules gaussian_square c_qubit t_qubit backend cr_samples cr_amp
          sigma risefall None cmd_def /\
      forall sign duration,
        cancellation_command gaussian_square (Some zero) sign duration sigma risefall
        = Ok (Delay duration) /\
        cancellation_command gaussian_square None sign duration sigma risefall
        = Ok (Delay duration))
      zero_amps.
Proof.
  intros gs c t backend cr_samples cr_amp sigma risefall cmd_def.
  assert (Forall (fun zero => truthy (Some zero) = false) zero_amps) as Hz.
  { repeat constructor. }
  eapply Forall_impl; [| exact Hz].
  intros zero Hzero.
  destruct (falsy_cancellation_amp gs c t backend cr_samples cr_amp sigma risefall
              (Some zero) cmd_def Hzero) as [H1 H2].
  split; [exact H1 |]. split; [exact H2 |].
  intros sign duration. split.
  - exact (cancellation_command_falsy gs (Some zero) sign duration sigma risefall
             Hzero).
  - reflexivity.
Qed.

(** What the statement [sched.insert(0, can_sched(t_drive))] computes
    when the cancellation amplitude is absent or zero and the duration
    is not negative: the schedule with the delay on the target drive
    channel at offset 0.  The builders drop it. *)
Lemma dropped_delay_insert gaussian_square cancellation_amp sign sigma risefall
  n t_drive d :
  truthy cancellation_amp = false ->
  0 <= d ->
  (can_sched <- cancellation_command gaussian_square cancellation_amp sign d
                  sigma risefall ;;
   can_inst <- play can_sched t_drive ;;
   insert (empty n) 0 can_inst)
  = Ok (mkSchedule n [(0, mkInstruction (Delay d) [t_drive])]).
Proof.
  intros Hfalsy Hd.
  rewrite (cancellation_command_falsy gaussian_square _ _ _ _ _ Hfalsy).
  cbn [bind]. unfold play. simpl command_duration.
  replace (d <? 0) with false by (symmetry; apply Z.ltb_ge; exact Hd).
  reflexivity.
Qed.

(** C10: with a cancellation amplitude of [0], [0.0] or [0j] both
    builders return what they return without a cancellation amplitude,
    and the statement that inserts the cancellation command computes a
    schedule with the delay of the duration on the target drive channel;
    but that schedule is dropped, and no schedule that a builder returns
    holds an instruction: no delay is placed on the target drive
    channel, with a zero amplitude or without one. *)
Theorem zero_cancellation_amp_places_no_delay :
  forall gaussian_square c_qubit t_qubit backend cr_samples cr_amp sigma risefall
         cmd_def zero cr_times schedules,
    In zero zero_amps ->
    cr1_rabi_schedules gaussian_square c_qubit t_qubit backend cr_samples cr_amp
      sigma risefall (Some zero) cmd_def = Ok (cr_times, schedules) \/
    cr2_rabi_schedules gaussian_square c_qubit t_qubit backend cr_samples cr_amp
      sigma risefall (Some zero) cmd_def = Ok (cr_times, schedules) ->
    (cr1_rabi_schedules gaussian_square c_qubit t_qubit backend cr_samples cr_amp
       sigma risefall (Some zero) cmd_def
     = cr1_rabi_schedules gaussian_square c_qubit t_qubit backend cr_samples cr_amp
         sigma risefall None cmd_def /\
     cr2_rabi_schedules gaussian_square c_qubit t_qubit backend cr_samples cr_amp
       sigma risefall (Some zero) cmd_def
     = cr2_rabi_schedules gaussian_square c_qubit t_qubit backend cr_samples cr_amp
         sigma risefall None cmd_def) /\
    (exists c_drive t_drive cr_drive,
       _get_channels c_qubit t_qubit backend cmd_def
       = Ok (c_drive, t_drive, cr_drive) /\
       forall n sign d,
         0 <= d ->
         (can_sched <- cancellation_command gaussian_square (Some zero) sign d
                         sigma risefall ;;
          can_inst <- play can_sched t_drive ;;
          insert (empty n) 0 can_inst)
         = Ok (mkSchedule n [(0, mkInstruction (Delay d) [t_drive])])) /\
    length schedules = length cr_samples /\
    forall sched,
      In sched schedules ->
      instructions sched = [] /\
      forall start d channel,
        ~ In (start, mkInstruction (Delay d) [channel]) (instructions sched).
Proof.
  intros gs c t backend cr_samples cr_amp sigma risefall cmd_def zero cr_times
    schedules Hzero H.
  assert (truthy (Some zero) = false) as Hfalsy.
  { destruct Hzero as [<- | [<- | [<- | []]]]; reflexivity. }
  split.
  { apply falsy_cancellation_amp, Hfalsy. }
  split.
  { assert (exists channels,
               _get_channels c t backend (Some (resolve_cmd_def backend cmd_def))
               = Ok channels) as ([[c_drive t_drive] cr_drive] & Hch).
    { destruct H as [H | H];
        [unfold cr1_rabi_schedules in H | unfold cr2_rabi_schedules in H];
        apply bind_Ok_inv in H as (channels & Hch & _);
        exists channels; exact Hch. }
    exists c_drive, t_drive, cr_drive. split; [exact Hch |].
    intros n sign d Hd. apply dropped_delay_insert; assumption. }
  assert (length schedules = length cr_samples /\
          forall i sched,
            nth_error schedules i = Some sched ->
            name sched = VStr (str_of_int (Z.of_nat i)) /\
            instructions sched = [] /\ duration sched = 0) as [Hlen Hall].
  { destruct H as [H | H].
    - apply cr1_rabi_schedules_inv in H as (t_drive & cr_drive & Hloop & _).
      apply (builder_loop_result _ _ _ (cr1_body_appends_fresh gs _ _ _ _ _ _) Hloop).
    - apply cr2_rabi_schedules_inv in H as (t_drive & cr_drive & echo_pi & Hloop & _).
      apply (builder_loop_result _ _ _
               (cr2_body_appends_fresh gs _ _ _ _ _ _ _ _) Hloop). }
  split; [exact Hlen |].
  intros sched Hin. apply In_nth_error in Hin as (i & Hi).
  destruct (Hall i sched Hi) as (_ & Hempty & _).
  split; [exact Hempty |].
  intros start d channel Hdelay. rewrite Hempty in Hdelay. contradiction.
Qed.

(** The unechoed builder for the durations 10 and 20 with the
    cancellation amplitude [0.0]: what it returns without one, two
    schedules, and no delay on the target drive channel, [DriveChannel 1],
    in either. *)
Lemma zero_cancellation_amp_places_no_delay_witness :
  exists cr_times sched0 sched1,
    cr1_example (Some (PyFloat 0%float)) = Ok (cr_times, [sched0; sched1]) /\
    cr1_example (Some (PyFloat 0%float)) = cr1_example None /\
    ~ In (0, mkInstruction (Delay 10) [DriveChannel 1]) (instructions sched0) /\
    ~ In (0, mkInstruction (Delay 20) [DriveChannel 1]) (instructions sched1).
Proof.
  assert (exists cr_times sched0 sched1,
             cr1_example (Some (PyFloat 0%float)) = Ok (cr_times, [sched0; sched1]))
    as (cr_times & s0 & s1 & E).
  { vm_compute. eauto. }
  exists cr_times, s0, s1. split; [exact E |].
  destruct (zero_cancellation_amp_places_no_delay Example.gaussian_square 0 1
              Example.backend [10; 20] (PyFloat 0.25%float) 2%float 2 None
              (PyFloat 0%float) cr_times [s0; s1]
              (or_intror (or_introl eq_refl)) (or_introl E))
    as ((Hsame & _) & _ & _ & Hnone).
  split; [exact Hsame |]. split.
  - apply (Hnone s0). left. reflexivity.
  - apply (Hnone s1). right. left. reflexivity.
Defined.

(** ** The tomography wrapper *)

Lemma tomography_body_appends flip_ctrl buffer rabi_sched basis meas_sched c_state
  schedules :
  tomography_body flip_ctrl buffer rabi_sched basis meas_sched c_state schedules
  = (ys <- (sched <- tomography_sched flip_ctrl buffer rabi_sched basis meas_sched
                       c_state ;;
            Ok [sched]) ;;
     Ok (schedules ++ ys)).
Proof.
  unfold tomography_body, tomography_sched.
  destruct (tomography_name _ _ _) as [n | e]; simpl; [| reflexivity].
  destruct (if negb (c_state =? 0) then _ else _) as [s1 | e]; simpl;
    [| reflexivity].
  destruct (insert s1 _ _) as [s2 | e]; simpl; [| reflexivity].
  destruct (insert s2 _ _) as [s3 | e]; simpl; reflexivity.
Qed.

Lemma tomography_loops flip_ctrl buffer meas_basis rabi_schedules :
  for_each rabi_schedules
    (fun rabi_sched schedules =>
       for_each meas_basis
         (fun '(basis, meas_sched) schedules =>
            for_each [0; 1]
              (tomography_body flip_ctrl buffer rabi_sched basis meas_sched)
              schedules)
         schedules)
    []
  = (groups <- map_each (tomography_group flip_ctrl buffer meas_basis)
                 rabi_schedules ;;
     Ok (concat groups)).
Proof.
  rewrite (for_each_append (tomography_group flip_ctrl buffer meas_basis)).
  - reflexivity.
  - intros rabi_sched s. unfold tomography_group.
    rewrite (for_each_append
               (fun '(basis, meas_sched) =>
                  yss <- map_each
                           (fun c_state =>
                              sched <- tomography_sched flip_ctrl buffer rabi_sched
                                         basis meas_sched c_state ;;
                              Ok [sched])
                           [0; 1] ;;
                  Ok (concat yss))).
    + destruct (map_each _ meas_basis); reflexivity.
    + intros [basis meas_sched] s'.
      rewrite (for_each_append
                 (fun c_state =>
                    sched <- tomography_sched flip_ctrl buffer rabi_sched
                               basis meas_sched c_state ;;
                    Ok [sched])).
      * destruct (map_each _ [0; 1]); reflexivity.
      * intros c_state s''. apply tomography_body_appends.
Qed.

(** The six schedules of a group, in order. *)
Lemma tomography_group_six flip_ctrl buffer meas_x meas_y meas_z rabi_sched group :
  tomography_group flip_ctrl buffer [("x", meas_x); ("y", meas_y); ("z", meas_z)]
    rabi_sched = Ok group ->
  exists x0 x1 y0 y1 z0 z1,
    group = [x0; x1; y0; y1; z0; z1] /\
    tomography_sched flip_ctrl buffer rabi_sched "x" meas_x 0 = Ok x0 /\
    tomography_sched flip_ctrl buffer rabi_sched "x" meas_x 1 = Ok x1 /\
    tomography_sched flip_ctrl buffer rabi_sched "y" meas_y 0 = Ok y0 /\
    tomography_sched flip_ctrl buffer rabi_sched "y" meas_y 1 = Ok y1 /\
    tomography_sched flip_ctrl buffer rabi_sched "z" meas_z 0 = Ok z0 /\
    tomography_sched flip_ctrl buffer rabi_sched "z" meas_z 1 = Ok z1.
Proof.
  unfold tomography_group. cbn [map_each]. intros H.
  repeat match goal with
         | E : bind _ _ = Ok _ |- _ => bind_inv E
         | E : Ok _ = Ok _ |- _ => injection E as E; subst
         end.
  do 6 eexists. split; [reflexivity |]. repeat split; eassumption.
Qed.

Lemma nth_error_concat_six {A : Type} (groups : list (list A)) :
  Forall (fun g => length g = 6%nat) groups ->
  forall r g k,
    nth_error groups r = Some g ->
    (k < 6)%nat ->
    nth_error (concat groups) (6 * r + k) = nth_error g k.
Proof.
  induction 1 as [| g0 gs Hg0 _ IH]; intros r g k Hr Hk.
  - destruct r; discriminate Hr.
  - destruct r as [| r]; simpl in Hr.
    + injection Hr as <-. simpl concat. rewrite nth_error_app1 by lia.
      f_equal.
    + simpl concat. rewrite nth_error_app2 by lia.
      rewrite Hg0. replace (6 * S r + k - 6)%nat with (6 * r + k)%nat by lia.
      apply IH; assumption.
Qed.

Lemma length_concat_six {A : Type} (groups : list (list A)) :
  Forall (fun g => length g = 6%nat) groups ->
  length (concat groups) = (6 * length groups)%nat.
Proof.
  induction 1 as [| g0 gs Hg0 _ IH]; simpl.
  - reflexivity.
  - rewrite length_app, Hg0, IH. lia.
Qed.

Lemma place_Ok_inv old t l out :
  place old t l = Ok out -> out = old ++ shift_timed t l.
Proof.
  unfold place. intros H.
  destruct (existsb _ (shift_timed t l)); [discriminate H |].
  destruct (existsb _ old); [discriminate H |].
  injection H as <-. reflexivity.
Qed.

Lemma insert_Ok_inv self start_time schedule out :
  insert self start_time schedule = Ok out ->
  name out = name self /\
  instructions out = instructions self ++ shift_timed start_time (instructions schedule).
Proof.
  unfold insert. intros H. bind_inv H. injection H as <-.
  apply place_Ok_inv in E. subst x. split; reflexivity.
Qed.

Lemma stop_le_duration (s : Schedule) (ti : timed) :
  In ti (instructions s) -> stop_of ti <= duration s.
Proof.
  unfold duration. induction (instructions s) as [| a l IH]; simpl; intros H.
  - contradiction.
  - destruct H as [<- | H]; [lia | specialize (IH H); lia].
Qed.

Lemma tomography_sched_inv flip_ctrl buffer rabi_sched basis meas_sched c_state sched :
  tomography_sched flip_ctrl buffer rabi_sched basis meas_sched c_state = Ok sched ->
  exists index,
    name rabi_sched = VInt index /\
    name sched
    = VStr (String.append (str_of_int index)
              (String.append ","
                 (String.append basis (String.append "," (str_of_int c_state))))) /\
    let before := before_measurement flip_ctrl buffer rabi_sched c_state in
    instructions sched
    = before
      ++ shift_timed (duration (mkSchedule VNone before) + buffer)
           (instructions meas_sched).
Proof.
  unfold tomography_sched. intros H.
  apply bind_Ok_inv in H as (n & Hname & H).
  apply bind_Ok_inv in H as (s1 & H1 & H).
  apply bind_Ok_inv in H as (s2 & H2 & H3).
  unfold tomography_name in Hname.
  apply bind_Ok_inv in Hname as (d & Hd & Hn). injection Hn as <-.
  destruct (name rabi_sched) as [| s | index]; try discriminate Hd.
  simpl in Hd. injection Hd as <-.
  exists index. split; [reflexivity |].
  apply insert_Ok_inv in H3 as [Hn3 Hi3].
  apply insert_Ok_inv in H2 as [Hn2 Hi2].
  assert (name s1 = VStr (String.append (str_of_int index)
                            (String.append ","
                               (String.append basis
                                  (String.append "," (str_of_int c_state))))) /\
          instructions s1
          = (if c_state =? 0 then [] else shift_timed 0 (instructions flip_ctrl)))
    as [Hn1 Hi1].
  { destruct (c_state =? 0); simpl in H1.
    - injection H1 as <-. split; reflexivity.
    - apply insert_Ok_inv in H1 as [Hn Hi]. split; assumption. }
  split.
  - rewrite Hn3, Hn2, Hn1. reflexivity.
  - simpl. rewrite Hi3. unfold before_measurement. rewrite <- Hi1, <- Hi2.
    unfold duration. simpl. reflexivity.
Qed.

(** What [cr_tomography_schedules] returns, when it returns: six
    schedules per Rabi schedule, the schedule of Rabi schedule [r],
    basis [b] and control state [c] at position [6 * r + 2 * b + c]. *)
Lemma cr_tomography_schedules_inv c_qubit t_qubit backend rabi_schedules cmd_def
  schedules :
  cr_tomography_schedules c_qubit t_qubit backend rabi_schedules cmd_def
  = Ok schedules ->
  exists flip_ctrl meas_x meas_y meas_z,
    get (resolve_cmd_def backend cmd_def) "x" [c_qubit] [] = Ok flip_ctrl /\
    length schedules = (6 * length rabi_schedules)%nat /\
    forall r rabi_sched b basis meas_sched c,
      nth_error rabi_schedules r = Some rabi_sched ->
      nth_error (bases meas_x meas_y meas_z) b = Some (basis, meas_sched) ->
      (c < 2)%nat ->
      exists sched,
        nth_error schedules (6 * r + 2 * b + c) = Some sched /\
        tomography_sched flip_ctrl (buffer backend) rabi_sched basis meas_sched
          (Z.of_nat c) = Ok sched.
Proof.
  unfold cr_tomography_schedules. intros H.
  apply bind_Ok_inv in H as (flip_ctrl & Hflip & H).
  apply bind_Ok_inv in H as (meas_qubits & _ & H).
  apply bind_Ok_inv in H as (measure & _ & H).
  apply bind_Ok_inv in H as (xproj_sched & _ & H).
  apply bind_Ok_inv in H as (yproj_sched & _ & H).
  apply bind_Ok_inv in H as (meas_x & _ & H).
  apply bind_Ok_inv in H as (meas_y & _ & H).
  apply bind_Ok_inv in H as (meas_z & _ & H).
  rewrite tomography_loops in H.
  apply bind_Ok_inv in H as (groups & E6 & H). injection H as <-.
  apply map_each_Forall2 in E6.
  exists flip_ctrl, meas_x, meas_y, meas_z.
  assert (Forall (fun g => length g = 6%nat) groups) as Hsix.
  { clear -E6. induction E6 as [| rabi g l l' Hg _ IH]; constructor.
    - apply tomography_group_six in Hg as (? & ? & ? & ? & ? & ? & -> & _).
      reflexivity.
    - exact IH. }
  split; [exact Hflip |]. split.
  - rewrite (length_concat_six groups Hsix).
    rewrite (Forall2_length E6). reflexivity.
  - intros r rabi_sched b basis meas_sched c Hr Hb Hc.
    destruct (Forall2_nth_error_l _ _ _ E6 r rabi_sched Hr) as (g & Hg & Hgroup).
    apply tomography_group_six in Hgroup
      as (x0 & x1 & y0 & y1 & z0 & z1 & -> & Hx0 & Hx1 & Hy0 & Hy1 & Hz0 & Hz1).
    assert (b < 3)%nat as Hb3.
    { assert (nth_error (bases meas_x meas_y meas_z) b <> None) as Hn
        by (rewrite Hb; discriminate).
      apply nth_error_Some in Hn. simpl in Hn. exact Hn. }
    replace (6 * r + 2 * b + c)%nat with (6 * r + (2 * b + c))%nat by lia.
    rewrite (nth_error_concat_six groups Hsix r _ (2 * b + c) Hg) by lia.
    destruct b as [| [| [| b]]]; [| | | lia];
      destruct c as [| [| c]]; try lia;
      simpl in Hb; injection Hb as <- <-; simpl;
      eexists; (split; [reflexivity | eassumption]).
Qed.

(** The names of the schedules returned, by position. *)
Lemma cr_tomography_schedules_enumeration c_qubit t_qubit backend rabi_schedules
  cmd_def schedules :
  cr_tomography_schedules c_qubit t_qubit backend rabi_schedules cmd_def
  = Ok schedules ->
  length schedules = (6 * length rabi_schedules)%nat /\
  forall r rabi_sched b basis c,
    nth_error rabi_schedules r = Some rabi_sched ->
    nth_error ["x"; "y"; "z"] b = Some basis ->
    (c < 2)%nat ->
    exists index sched,
      name rabi_sched = VInt index /\
      nth_error schedules (6 * r + 2 * b + c) = Some sched /\
      name sched
      = VStr (String.append (str_of_int index)
                (String.append ","
                   (String.append basis
                      (String.append "," (str_of_int (Z.of_nat c)))))).
Proof.
  intros H.
  apply cr_tomography_schedules_inv in H
    as (flip_ctrl & meas_x & meas_y & meas_z & _ & Hlen & Hnth).
  split; [exact Hlen |].
  intros r rabi_sched b basis c Hr Hb Hc.
  assert (exists meas_sched,
             nth_error (bases meas_x meas_y meas_z) b = Some (basis, meas_sched))
    as (meas_sched & Hb').
  { destruct b as [| [| [| b]]]; simpl in Hb;
      [injection Hb as <- .. |]; try (eexists; reflexivity).
    destruct b; discriminate Hb. }
  destruct (Hnth r rabi_sched b basis meas_sched c Hr Hb' Hc) as (sched & Hs & Hts).
  apply tomography_sched_inv in Hts as (index & Hname & Hsname & _).
  exists index, sched. repeat split; assumption.
Qed.

(** A Rabi schedule whose name is not an integer ends the wrapper with
    an exception. *)
Lemma tomography_raises_on_name c_qubit t_qubit backend rabi_schedules cmd_def
  rabi_sched :
  In rabi_sched rabi_schedules ->
  (forall index, name rabi_sched <> VInt index) ->
  exists e,
    cr_tomography_schedules c_qubit t_qubit backend rabi_schedules cmd_def = Raise e.
Proof.
  intros Hin Hname.
  destruct (cr_tomography_schedules c_qubit t_qubit backend rabi_schedules cmd_def)
    as [schedules | e] eqn:E; [exfalso | exists e; reflexivity].
  apply cr_tomography_schedules_enumeration in E as [_ Hnth].
  apply In_nth_error in Hin as (r & Hr).
  destruct (Hnth r rabi_sched 0%nat "x" 0%nat Hr eq_refl ltac:(lia))
    as (index & _ & Hint & _).
  exact (Hname index Hint).
Qed.

(** C2: a list with a Rabi schedule whose name is not an integer, a
    string or [None], makes [cr_tomography_schedules] raise, so that it
    returns no schedule at all; when it does return, it returns six
    schedules per Rabi schedule, and the schedule at position
    [6 * r + 2 * b + c] is named after Rabi schedule [r], basis [b] of
    (x, y, z) and control state [c] of (0, 1). *)
Theorem tomography_enumeration_needs_integer_names :
  forall c_qubit t_qubit backend rabi_schedules cmd_def,
    (forall rabi_sched,
       In rabi_sched rabi_schedules ->
       (forall index, name rabi_sched <> VInt index) ->
       exists e,
         cr_tomography_schedules c_qubit t_qubit backend rabi_schedules cmd_def
         = Raise e) /\
    (forall schedules,
       cr_tomography_schedules c_qubit t_qubit backend rabi_schedules cmd_def
       = Ok schedules ->
       length schedules = (6 * length rabi_schedules)%nat /\
       forall r rabi_sched b basis c,
         nth_error rabi_schedules r = Some rabi_sched ->
         nth_error ["x"; "y"; "z"] b = Some basis ->
         (c < 2)%nat ->
         exists index sched,
           name rabi_sched = VInt index /\
           nth_error schedules (6 * r + 2 * b + c) = Some sched /\
           name sched
           = VStr (String.append (str_of_int index)
                     (String.append ","
                        (String.append basis
                           (String.append "," (str_of_int (Z.of_nat c))))))).
Proof.
  intros c t backend rabi_schedules cmd_def. split.
  - intros rabi_sched. apply tomography_raises_on_name.
  - intros schedules. apply cr_tomography_schedules_enumeration.
Qed.

(** One Rabi schedule named ["0"], as the builders name their first
    schedule: a [TypeError], no schedule. *)
Lemma tomography_enumeration_needs_integer_names_witness :
  cr_tomography_schedules 0 1 Example.backend [empty (VStr "0")] None
  = Raise (TypeError "%d format: a number is required, not str") /\
  exists e,
    cr_tomography_schedules 0 1 Example.backend [empty (VStr "0")] None = Raise e.
Proof.
  split; [reflexivity |].
  apply (proj1 (tomography_enumeration_needs_integer_names 0 1 Example.backend
                  [empty (VStr "0")] None) (empty (VStr "0"))).
  - left. reflexivity.
  - intros index. discriminate.
Defined.

(** C5: the schedules that either Rabi builder returns are named by the
    decimal string of their position, and [cr_tomography_schedules]
    raises on them whenever there is at least one: the [%d] conversion
    of the name wants a number. *)
Theorem tomography_rejects_rabi_builder_names :
  forall gaussian_square c_qubit t_qubit backend cr_samples cr_amp sigma risefall
         cancellation_amp cmd_def cr_times rabi_schedules,
    cr1_rabi_schedules gaussian_square c_qubit t_qubit backend cr_samples cr_amp
      sigma risefall cancellation_amp cmd_def = Ok (cr_times, rabi_schedules) \/
    cr2_rabi_schedules gaussian_square c_qubit t_qubit backend cr_samples cr_amp
      sigma risefall cancellation_amp cmd_def = Ok (cr_times, rabi_schedules) ->
    cr_samples <> [] ->
    (forall i rabi_sched,
       nth_error rabi_schedules i = Some rabi_sched ->
       name rabi_sched = VStr (str_of_int (Z.of_nat i)) /\
       exists e, tomography_name (name rabi_sched) "x" 0 = Raise (TypeError e)) /\
    exists e,
      cr_tomography_schedules c_qubit t_qubit backend rabi_schedules cmd_def
      = Raise e.
Proof.
  intros gs c t backend cr_samples cr_amp sigma risefall camp cmd_def cr_times
    rabi_schedules H Hne.
  assert (length rabi_schedules = length cr_samples /\
          forall i sched,
            nth_error rabi_schedules i = Some sched ->
            name sched = VStr (str_of_int (Z.of_nat i)) /\
            instructions sched = [] /\ duration sched = 0) as [Hlen Hall].
  { destruct H as [H | H].
    - apply cr1_rabi_schedules_inv in H as (t_drive & cr_drive & Hloop & _).
      apply (builder_loop_result _ _ _ (cr1_body_appends_fresh gs _ _ _ _ _ _) Hloop).
    - apply cr2_rabi_schedules_inv in H as (t_drive & cr_drive & echo_pi & Hloop & _).
      apply (builder_loop_result _ _ _
               (cr2_body_appends_fresh gs _ _ _ _ _ _ _ _) Hloop). }
  split.
  - intros i rabi_sched Hi. destruct (Hall i rabi_sched Hi) as (Hn & _).
    split; [exact Hn |]. rewrite Hn. simpl. eexists. reflexivity.
  - destruct rabi_schedules as [| rabi_sched rest].
    + destruct cr_samples; [contradiction | discriminate Hlen].
    + apply (tomography_raises_on_name c t backend (rabi_sched :: rest) cmd_def
               rabi_sched).
      * left. reflexivity.
      * intros index. destruct (Hall 0%nat rabi_sched eq_refl) as (Hn & _).
        rewrite Hn. discriminate.
Qed.

(** The schedules of the unechoed builder for the durations 10 and 20,
    passed on to the wrapper: a [TypeError]. *)
Lemma tomography_rejects_rabi_builder_names_witness :
  exists cr_times rabi_schedules,
    cr1_example None = Ok (cr_times, rabi_schedules) /\
    cr_tomography_schedules 0 1 Example.backend rabi_schedules None
    = Raise (TypeError "%d format: a number is required, not str") /\
    exists e,
      cr_tomography_schedules 0 1 Example.backend rabi_schedules None = Raise e.
Proof.
  assert (exists cr_times rabi_schedules,
             cr1_example None = Ok (cr_times, rabi_schedules) /\
             cr_tomography_schedules 0 1 Example.backend rabi_schedules None
             = Raise (TypeError "%d format: a number is required, not str"))
    as (cr_times & rabi_schedules & E & Hraise).
  { vm_compute. eauto. }
  exists cr_times, rabi_schedules. split; [exact E |]. split; [exact Hraise |].
  apply (tomography_rejects_rabi_builder_names Example.gaussian_square 0 1
           Example.backend [10; 20] (PyFloat 0.25%float) 2%float 2 None None
           cr_times rabi_schedules).
  - left. exact E.
  - discriminate.
Defined.




(** ** When the functions return *)

Lemma existsb_false {A : Type} (f : A -> bool) (l : list A) :
  (forall x, In x l -> f x = false) -> existsb f l = false.
Proof.
  induction l as [| a l IH]; intros H; simpl.
  - reflexivity.
  - rewrite (H a (or_introl eq_refl)). apply IH.
    intros x Hx. apply H. right. exact Hx.
Qed.

Lemma in_shift_timed t l ti :
  In ti (shift_timed t l) ->
  exists ti0, In ti0 l /\ start_of ti = t + start_of ti0 /\
              stop_of ti = t + stop_of ti0.
Proof.
  unfold shift_timed. intros H. apply in_map_iff in H as ([t0 i] & <- & Hin).
  exists (t0, i). split; [exact Hin |]. unfold start_of, stop_of. simpl.
  split; lia.
Qed.

(** Placing instructions after everything that is already there works. *)
Lemma place_after old t l :
  0 <= t ->
  Forall (fun ti => 0 <= start_of ti) l ->
  (forall a, In a old -> stop_of a <= t) ->
  place old t l = Ok (old ++ shift_timed t l).
Proof.
  intros Ht Hl Hold. unfold place.
  rewrite Forall_forall in Hl.
  rewrite existsb_false.
  - rewrite existsb_false; [reflexivity |].
    intros a Ha. apply existsb_false. intros b Hb.
    apply in_shift_timed in Hb as (b0 & Hb0 & Hstart & _).
    unfold overlaps.
    replace (start_of b <? stop_of a) with false.
    + apply andb_false_r.
    + symmetry. apply Z.ltb_ge. specialize (Hl b0 Hb0). specialize (Hold a Ha). lia.
  - intros b Hb. apply in_shift_timed in Hb as (b0 & Hb0 & Hstart & _).
    apply Z.ltb_ge. specialize (Hl b0 Hb0). lia.
Qed.

Lemma insert_after self t schedule :
  0 <= t ->
  well_timed schedule ->
  (forall a, In a (instructions self) -> stop_of a <= t) ->
  insert self t schedule
  = Ok (mkSchedule (name self)
          (instructions self ++ shift_timed t (instructions schedule))).
Proof.
  intros Ht Hs Hself. unfold insert.
  rewrite (place_after _ _ _ Ht Hs Hself). reflexivity.
Qed.

Lemma duration_nonneg (s : Schedule) : 0 <= duration s.
Proof.
  unfold duration. induction (instructions s) as [| a l IH]; simpl; lia.
Qed.

Lemma well_timed_insert n old t l :
  0 <= t ->
  Forall (fun ti => 0 <= start_of ti) old ->
  Forall (fun ti => 0 <= start_of ti) l ->
  well_timed (mkSchedule n (old ++ shift_timed t l)).
Proof.
  intros Ht Hold Hl. unfold well_timed. simpl.
  apply Forall_app. split; [exact Hold |].
  rewrite Forall_forall in *. intros b Hb.
  apply in_shift_timed in Hb as (b0 & Hb0 & Hstart & _).
  specialize (Hl b0 Hb0). lia.
Qed.

Lemma map_each_returns {A B : Type} (f : A -> result B) (l : list A) :
  Forall (fun x => exists y, f x = Ok y) l -> exists ys, map_each f l = Ok ys.
Proof.
  induction 1 as [| x l (y & Hy) _ (ys & Hys)]; simpl.
  - eexists. reflexivity.
  - rewrite Hy. simpl. rewrite Hys. simpl. eexists. reflexivity.
Qed.

Lemma tomography_sched_returns flip_ctrl buffer rabi_sched basis meas_sched c_state
  index :
  0 <= buffer ->
  name rabi_sched = VInt index ->
  well_timed flip_ctrl ->
  well_timed rabi_sched ->
  well_timed meas_sched ->
  exists sched,
    tomography_sched flip_ctrl buffer rabi_sched basis meas_sched c_state = Ok sched.
Proof.
  intros Hbuf Hname Hflip Hrabi Hmeas.
  unfold tomography_sched, tomography_name. rewrite Hname. simpl.
  set (n := VStr _).
  assert (exists s1,
             (if negb (c_state =? 0) then insert (empty n) 0 flip_ctrl
              else Ok (empty n)) = Ok s1 /\
             forall a, In a (instructions s1) -> stop_of a <= duration flip_ctrl)
    as (s1 & -> & Hs1).
  { destruct (c_state =? 0); simpl.
    - eexists. split; [reflexivity |]. simpl. contradiction.
    - rewrite (insert_after (empty n) 0 flip_ctrl); [| lia | exact Hflip |].
      + eexists. split; [reflexivity |]. simpl. intros a Ha.
        apply in_shift_timed in Ha as (a0 & Ha0 & _ & ->).
        pose proof (stop_le_duration flip_ctrl a0 Ha0). lia.
      + simpl. contradiction. }
  simpl.
  pose proof (duration_nonneg flip_ctrl) as Hd.
  rewrite (insert_after s1 (duration flip_ctrl + buffer) rabi_sched);
    [| lia | exact Hrabi |].
  - simpl. set (s2 := mkSchedule _ _).
    pose proof (duration_nonneg s2) as Hd2.
    rewrite (insert_after s2 (duration s2 + buffer) meas_sched);
      [| lia | exact Hmeas |].
    + eexists. reflexivity.
    + intros a Ha. pose proof (stop_le_duration s2 a Ha). lia.
  - intros a Ha. specialize (Hs1 a Ha). lia.
Qed.

Lemma tomography_group_returns flip_ctrl buffer meas_x meas_y meas_z rabi_sched index :
  0 <= buffer ->
  name rabi_sched = VInt index ->
  well_timed flip_ctrl ->
  well_timed rabi_sched ->
  well_timed meas_x -> well_timed meas_y -> well_timed meas_z ->
  exists group,
    tomography_group flip_ctrl buffer (bases meas_x meas_y meas_z) rabi_sched
    = Ok group.
Proof.
  intros Hbuf Hname Hflip Hrabi Hx Hy Hz.
  unfold tomography_group, bases. cbn [map_each].
  repeat match goal with
         | |- context [tomography_sched ?f ?b ?r ?basis ?m ?c] =>
             let s := fresh "s" in
             let E := fresh "E" in
             destruct (tomography_sched_returns f b r basis m c index)
               as (s & E); [assumption .. |];
             rewrite E; clear E; cbn [bind]
         end.
  eexists. reflexivity.
Qed.

(** With a buffer that is not negative, the calibrated schedules that
    the wrapper looks up, and Rabi schedules named by integers, the
    wrapper returns. *)
Lemma cr_tomography_schedules_returns c_qubit t_qubit backend rabi_schedules cmd_def
  meas_qubits flip_ctrl measure xproj_sched yproj_sched :
  0 <= buffer backend ->
  index (meas_map backend) 0 = Ok meas_qubits ->
  get (resolve_cmd_def backend cmd_def) "x" [c_qubit] [] = Ok flip_ctrl ->
  get (resolve_cmd_def backend cmd_def) "measure" meas_qubits [] = Ok measure ->
  get (resolve_cmd_def backend cmd_def) "u2" [t_qubit]
    [("P0", PyInt 0); ("P1", PyFloat pi)] = Ok xproj_sched ->
  get (resolve_cmd_def backend cmd_def) "u2" [t_qubit]
    [("P0", PyInt 0); ("P1", PyFloat (PrimFloat.mul 0.5%float pi))]
  = Ok yproj_sched ->
  well_timed flip_ctrl -> well_timed measure ->
  well_timed xproj_sched -> well_timed yproj_sched ->
  Forall (fun rabi_sched =>
            well_timed rabi_sched /\ exists index, name rabi_sched = VInt index)
         rabi_schedules ->
  exists schedules,
    cr_tomography_schedules c_qubit t_qubit backend rabi_schedules cmd_def
    = Ok schedules /\
    length schedules = (6 * length rabi_schedules)%nat.
Proof.
  intros Hbuf Hmm Hflip Hmeasure Hxp Hyp Wflip Wmeasure Wx Wy Hrabi.
  assert (exists schedules,
             cr_tomography_schedules c_qubit t_qubit backend rabi_schedules cmd_def
             = Ok schedules) as (schedules & E).
  { unfold cr_tomography_schedules.
    rewrite Hflip. cbn [bind]. rewrite Hmm. cbn [bind].
    rewrite Hmeasure. cbn [bind]. rewrite Hxp. cbn [bind]. rewrite Hyp. cbn [bind].
    set (proj_delay := Z.max (duration xproj_sched) (duration yproj_sched)
                       + buffer backend).
    pose proof (duration_nonneg xproj_sched) as Hdx.
    pose proof (duration_nonneg yproj_sched) as Hdy.
    assert (0 <= proj_delay) as Hpd by (unfold proj_delay; lia).
    rewrite (insert_after xproj_sched proj_delay measure Hpd Wmeasure).
    2: { intros a Ha. pose proof (stop_le_duration xproj_sched a Ha).
         unfold proj_delay. lia. }
    cbn [bind].
    rewrite (insert_after yproj_sched proj_delay measure Hpd Wmeasure).
    2: { intros a Ha. pose proof (stop_le_duration yproj_sched a Ha).
         unfold proj_delay. lia. }
    cbn [bind]. unfold shift.
    rewrite (place_after [] proj_delay (instructions measure) Hpd Wmeasure).
    2: { intros a []. }
    cbn [bind]. rewrite tomography_loops.
    match goal with
    | |- context [map_each (tomography_group ?f ?b [("x", ?mx); ("y", ?my); ("z", ?mz)])] =>
        destruct (map_each_returns (tomography_group f b (bases mx my mz))
                    rabi_schedules) as (groups & Hgroups)
    end.
    - eapply Forall_impl; [| exact Hrabi].
      intros rabi_sched (Wrabi & index & Hname).
      apply (tomography_group_returns _ _ _ _ _ _ index); try assumption.
      + apply well_timed_insert; assumption.
      + apply well_timed_insert; assumption.
      + apply (well_timed_insert _ [] proj_delay); [assumption | constructor | assumption].
    - unfold bases in Hgroups. rewrite Hgroups. cbn [bind].
      eexists. reflexivity. }
  exists schedules. split; [exact E |].
  apply cr_tomography_schedules_enumeration in E as [Hlen _]. exact Hlen.
Qed.

Lemma for_each_returns {A S : Type} (body : A -> S -> result S) (l : list A) :
  (forall x, In x l -> forall s, exists s', body x s = Ok s') ->
  forall s, exists out, for_each l body s = Ok out.
Proof.
  induction l as [| x xs IH]; intros H s; simpl.
  - eexists. reflexivity.
  - destruct (H x (or_introl eq_refl) s) as (s' & ->). simpl.
    apply IH. intros y Hy. apply H. right. exact Hy.
Qed.

Lemma in_enumerate_from {A : Type} (l : list A) (i : Z) (item : Z * A) :
  In item (enumerate_from i l) -> In (snd item) l.
Proof.
  revert i. induction l as [| x xs IH]; intros i H; simpl in H.
  - contradiction.
  - destruct H as [<- | H]; [left; reflexivity | right; apply (IH _ H)].
Qed.

Lemma play_returns cmd channel :
  0 <= command_duration cmd ->
  play cmd channel = Ok (mkSchedule VNone [(0, mkInstruction cmd [channel])]).
Proof.
  intros H. unfold play.
  replace (command_duration cmd <? 0) with false
    by (symmetry; apply Z.ltb_ge; exact H).
  reflexivity.
Qed.

Lemma well_timed_play cmd channel :
  well_timed (mkSchedule VNone [(0, mkInstruction cmd [channel])]).
Proof. repeat constructor. unfold start_of. simpl. lia. Qed.

Lemma insert_empty n t schedule :
  0 <= t ->
  well_timed schedule ->
  exists sched, insert (empty n) t schedule = Ok sched.
Proof.
  intros Ht Hs. rewrite (insert_after (empty n) t schedule Ht Hs).
  - eexists. reflexivity.
  - intros a [].
Qed.

Lemma cr_times_of_returns cr_samples backend :
  Forall (fun cr_sample => exists x, float_of_int cr_sample = Ok x) cr_samples ->
  exists cr_times, cr_times_of cr_samples backend = Ok cr_times.
Proof.
  intros H. unfold cr_times_of.
  destruct (map_each_returns float_of_int cr_samples H) as (arr & ->).
  simpl. eexists. reflexivity.
Qed.

Section BuilderReturns.

Variable gaussian_square : Z -> num -> float -> Z -> result (list sample).

Lemma cr1_body_returns t_drive cr_drive cr_amp sigma risefall cancellation_amp
  index cr_sample schedules :
  pulses_accepted gaussian_square cr_amp sigma risefall cancellation_amp (fun a => a) cr_sample ->
  exists schedules',
    cr1_body gaussian_square t_drive cr_drive cr_amp sigma risefall cancellation_amp
      (index, cr_sample) schedules = Ok schedules'.
Proof.
  intros ((samples & Hcr) & cmd & Hcan & Hdur). unfold cr1_body.
  rewrite Hcr. cbn [bind]. rewrite Hcan. cbn [bind].
  rewrite play_returns by (simpl; lia). cbn [bind].
  destruct (insert_empty (VStr (str_of_int index)) 0 _ ltac:(lia)
              (well_timed_play (SamplePulse samples) cr_drive)) as (s1 & ->).
  cbn [bind]. rewrite (play_returns cmd t_drive Hdur). cbn [bind].
  destruct (insert_empty (VStr (str_of_int index)) 0 _ ltac:(lia)
              (well_timed_play cmd t_drive)) as (s2 & ->).
  cbn [bind]. eexists. reflexivity.
Qed.

(** The unechoed builder returns when channel resolution does, the
    library accepts the pulses and the durations fit a float. *)
Lemma cr1_rabi_schedules_returns c_qubit t_qubit backend cr_samples cr_amp sigma
  risefall cancellation_amp cmd_def channels :
  _get_channels c_qubit t_qubit backend cmd_def = Ok channels ->
  Forall (fun cr_sample =>
            pulses_accepted gaussian_square cr_amp sigma risefall cancellation_amp (fun a => a)
              cr_sample /\
            exists x, float_of_int cr_sample = Ok x)
         cr_samples ->
  exists cr_times schedules,
    cr1_rabi_schedules gaussian_square c_qubit t_qubit backend cr_samples cr_amp
      sigma risefall cancellation_amp cmd_def = Ok (cr_times, schedules) /\
    length schedules = length cr_samples.
Proof.
  intros Hch Hall. destruct channels as [[c_drive t_drive] cr_drive].
  assert (exists cr_times schedules,
             cr1_rabi_schedules gaussian_square c_qubit t_qubit backend cr_samples
               cr_amp sigma risefall cancellation_amp cmd_def
             = Ok (cr_times, schedules)) as (cr_times & schedules & E).
  { unfold cr1_rabi_schedules.
    change (_get_channels c_qubit t_qubit backend
              (Some (resolve_cmd_def backend cmd_def)))
      with (_get_channels c_qubit t_qubit backend cmd_def).
    rewrite Hch. cbn [bind].
    destruct (for_each_returns
                (cr1_body gaussian_square t_drive cr_drive cr_amp sigma risefall
                   cancellation_amp)
                (enumerate cr_samples)) with (s := @nil Schedule)
      as (schedules & ->).
    - intros [index cr_sample] Hin acc. apply in_enumerate_from in Hin.
      rewrite Forall_forall in Hall. destruct (Hall _ Hin) as [Hp _].
      apply cr1_body_returns, Hp.
    - cbn [bind].
      destruct (cr_times_of_returns cr_samples backend) as (cr_times & ->).
      + eapply Forall_impl; [| exact Hall]. intros d [_ H]. exact H.
      + cbn [bind]. eexists. eexists. reflexivity. }
  exists cr_times, schedules. split; [exact E |].
  apply cr1_rabi_schedules_inv in E as (t_drive' & cr_drive' & Hloop & _).
  apply (builder_loop_result _ _ _
           (cr1_body_appends_fresh gaussian_square _ _ _ _ _ _) Hloop).
Qed.

Lemma cr2_body_returns t_drive cr_drive echo_pi buffer cr_amp sigma risefall
  cancellation_amp index cr_sample half_cr_sample schedules :
  0 <= buffer ->
  well_timed echo_pi ->
  half_of cr_sample = Ok half_cr_sample ->
  pulses_accepted gaussian_square cr_amp sigma risefall cancellation_amp (fun a => a) half_cr_sample ->
  pulses_accepted gaussian_square cr_amp sigma risefall cancellation_amp neg half_cr_sample ->
  exists schedules',
    cr2_body gaussian_square t_drive cr_drive echo_pi buffer cr_amp sigma risefall
      cancellation_amp (index, cr_sample) schedules = Ok schedules'.
Proof.
  intros Hbuf Wecho Hhalf ((sp & Hp) & cp & Hcp & Hdp) ((sm & Hm) & cm & Hcm & Hdm).
  unfold cr2_body. rewrite Hhalf. cbn [bind]. rewrite Hp. cbn [bind].
  rewrite Hm. cbn [bind]. rewrite Hcp. cbn [bind]. rewrite Hcm. cbn [bind].
  change (duration (empty (VStr (str_of_int index)))) with 0.
  rewrite play_returns by (simpl; lia). cbn [bind].
  destruct (insert_empty (VStr (str_of_int index)) 0 _ ltac:(lia)
              (well_timed_play (SamplePulse sp) cr_drive)) as (s1 & ->).
  cbn [bind]. rewrite (play_returns cp t_drive Hdp). cbn [bind].
  destruct (insert_empty (VStr (str_of_int index)) 0 _ ltac:(lia)
              (well_timed_play cp t_drive)) as (s2 & ->).
  cbn [bind].
  destruct (insert_empty (VStr (str_of_int index)) (0 + buffer) echo_pi ltac:(lia)
              Wecho) as (s3 & ->).
  cbn [bind]. rewrite play_returns by (simpl; lia). cbn [bind].
  destruct (insert_empty (VStr (str_of_int index)) (0 + buffer) _ ltac:(lia)
              (well_timed_play (SamplePulse sm) cr_drive)) as (s4 & ->).
  cbn [bind]. rewrite (play_returns cm t_drive Hdm). cbn [bind].
  destruct (insert_empty (VStr (str_of_int index)) (0 + buffer) _ ltac:(lia)
              (well_timed_play cm t_drive)) as (s5 & ->).
  cbn [bind]. eexists. reflexivity.
Qed.

(** The echoed builder returns when, besides, the buffer is not
    negative and the flip of the control qubit is calibrated. *)
Lemma cr2_rabi_schedules_returns c_qubit t_qubit backend cr_samples cr_amp sigma
  risefall cancellation_amp cmd_def channels echo_pi :
  _get_channels c_qubit t_qubit backend cmd_def = Ok channels ->
  get (resolve_cmd_def backend cmd_def) "x" [c_qubit] [] = Ok echo_pi ->
  well_timed echo_pi ->
  0 <= buffer backend ->
  Forall (fun cr_sample =>
            (exists half_cr_sample,
               half_of cr_sample = Ok half_cr_sample /\
               pulses_accepted gaussian_square cr_amp sigma risefall cancellation_amp (fun a => a)
                 half_cr_sample /\
               pulses_accepted gaussian_square cr_amp sigma risefall cancellation_amp neg
                 half_cr_sample) /\
            exists x, float_of_int cr_sample = Ok x)
         cr_samples ->
  exists cr_times schedules,
    cr2_rabi_schedules gaussian_square c_qubit t_qubit backend cr_samples cr_amp
      sigma risefall cancellation_amp cmd_def = Ok (cr_times, schedules) /\
    length schedules = length cr_samples.
Proof.
  intros Hch Hecho Wecho Hbuf Hall. destruct channels as [[c_drive t_drive] cr_drive].
  assert (exists cr_times schedules,
             cr2_rabi_schedules gaussian_square c_qubit t_qubit backend cr_samples
               cr_amp sigma risefall cancellation_amp cmd_def
             = Ok (cr_times, schedules)) as (cr_times & schedules & E).
  { unfold cr2_rabi_schedules.
    change (_get_channels c_qubit t_qubit backend
              (Some (resolve_cmd_def backend cmd_def)))
      with (_get_channels c_qubit t_qubit backend cmd_def).
    rewrite Hch. cbn [bind]. rewrite Hecho. cbn [bind].
    destruct (for_each_returns
                (cr2_body gaussian_square t_drive cr_drive echo_pi (buffer backend)
                   cr_amp sigma risefall cancellation_amp)
                (enumerate cr_samples)) with (s := @nil Schedule)
      as (schedules & ->).
    - intros [index cr_sample] Hin acc. apply in_enumerate_from in Hin.
      rewrite Forall_forall in Hall.
      destruct (Hall _ Hin) as [(half & Hhalf & Hp & Hm) _].
      apply (cr2_body_returns _ _ _ _ _ _ _ _ _ _ half); assumption.
    - cbn [bind].
      destruct (cr_times_of_returns cr_samples backend) as (cr_times & ->).
      + eapply Forall_impl; [| exact Hall]. intros d [_ H]. exact H.
      + cbn [bind]. eexists. eexists. reflexivity. }
  exists cr_times, schedules. split; [exact E |].
  apply cr2_rabi_schedules_inv in E as (t_drive' & cr_drive' & echo' & Hloop & _).
  apply (builder_loop_result _ _ _
           (cr2_body_appends_fresh gaussian_square _ _ _ _ _ _ _ _) Hloop).
Qed.

End BuilderReturns.

(** ** Durations of composed schedules *)

Lemma last_stop_app (a b : list timed) :
  last_stop (a ++ b) = Z.max (last_stop a) (last_stop b).
Proof.
  unfold last_stop, duration. simpl.
  induction a as [| x a IH]; simpl.
  - pose proof (duration_nonneg (mkSchedule VNone b)) as H.
    unfold duration in H. simpl in H. lia.
  - rewrite IH. lia.
Qed.

Lemma last_stop_nonneg (l : list timed) : 0 <= last_stop l.
Proof. apply duration_nonneg. Qed.

Lemma last_stop_ge (l : list timed) (ti : timed) :
  In ti l -> stop_of ti <= last_stop l.
Proof. apply (stop_le_duration (mkSchedule VNone l)). Qed.

Lemma last_stop_cases (l : list timed) :
  last_stop l = 0 \/ exists b, In b l /\ last_stop l = stop_of b.
Proof.
  unfold last_stop, duration. simpl.
  induction l as [| a l IH]; simpl.
  - left. reflexivity.
  - destruct (Z.max_spec (stop_of a)
                (fold_right (fun ti acc => Z.max (stop_of ti) acc) 0 l))
      as [[_ ->] | [_ ->]].
    + destruct IH as [IH | (b & Hb & IH)].
      * left. exact IH.
      * right. exists b. split; [right; exact Hb | exact IH].
    + right. exists a. split; [left; reflexivity | reflexivity].
Qed.

Lemma shift_timed_0 (l : list timed) : shift_timed 0 l = l.
Proof.
  unfold shift_timed. rewrite <- (map_id l) at 2.
  apply map_ext. intros [t i]. reflexivity.
Qed.

Lemma last_stop_shift (t : Z) (l : list timed) :
  0 <= t ->
  (exists a, In a l /\ 0 <= stop_of a) ->
  last_stop (shift_timed t l) = t + last_stop l.
Proof.
  intros Ht (a & Ha & Hstop).
  apply Z.le_antisymm.
  - destruct (last_stop_cases (shift_timed t l)) as [-> | (b & Hb & ->)].
    + pose proof (last_stop_nonneg l). lia.
    + apply in_shift_timed in Hb as (b0 & Hb0 & _ & ->).
      pose proof (last_stop_ge l b0 Hb0). lia.
  - assert (forall b0, In b0 l -> t + stop_of b0 <= last_stop (shift_timed t l))
      as Hall.
    { intros b0 Hb0.
      assert (In (t + fst b0, snd b0) (shift_timed t l)) as Hin.
      { unfold shift_timed. apply in_map_iff. exists b0. split; [reflexivity | exact Hb0]. }
      apply last_stop_ge in Hin. unfold stop_of in *. simpl in Hin. lia. }
    destruct (last_stop_cases l) as [-> | (b & Hb & ->)].
    + specialize (Hall a Ha). lia.
    + apply Hall, Hb.
Qed.

Lemma proper_occupied (s : Schedule) :
  proper s -> instructions s <> [] ->
  exists a, In a (instructions s) /\ 0 <= stop_of a.
Proof.
  unfold proper. intros H Hne. destruct (instructions s) as [| a l]; [contradiction |].
  exists a. split; [left; reflexivity |]. inversion H as [| ? ? Ha _]. lia.
Qed.

Lemma place_Ok_starts old t l out :
  place old t l = Ok out -> Forall (fun ti => 0 <= start_of ti) (shift_timed t l).
Proof.
  unfold place. intros H.
  destruct (existsb _ (shift_timed t l)) eqn:E; [discriminate H |].
  apply Forall_forall. intros ti Hti.
  destruct (Z.ltb_spec (start_of ti) 0) as [Hneg | Hpos]; [| exact Hpos].
  exfalso. assert (existsb (fun ti => start_of ti <? 0) (shift_timed t l) = true) as E'.
  { apply existsb_exists. exists ti. split; [exact Hti | apply Z.ltb_lt; exact Hneg]. }
  congruence.
Qed.

(** What [cr_tomography_schedules] looked up and built before its loops,
    when it returns. *)
Lemma cr_tomography_schedules_inv_full c_qubit t_qubit backend rabi_schedules cmd_def
  schedules :
  cr_tomography_schedules c_qubit t_qubit backend rabi_schedules cmd_def
  = Ok schedules ->
  exists flip_ctrl meas_qubits measure xproj_sched yproj_sched meas_x meas_y meas_z,
    get (resolve_cmd_def backend cmd_def) "x" [c_qubit] [] = Ok flip_ctrl /\
    index (meas_map backend) 0 = Ok meas_qubits /\
    get (resolve_cmd_def backend cmd_def) "measure" meas_qubits [] = Ok measure /\
    get (resolve_cmd_def backend cmd_def) "u2" [t_qubit] x_params = Ok xproj_sched /\
    get (resolve_cmd_def backend cmd_def) "u2" [t_qubit] y_params = Ok yproj_sched /\
    insert xproj_sched (proj_delay_of xproj_sched yproj_sched (buffer backend)) measure
    = Ok meas_x /\
    insert yproj_sched (proj_delay_of xproj_sched yproj_sched (buffer backend)) measure
    = Ok meas_y /\
    shift measure (proj_delay_of xproj_sched yproj_sched (buffer backend)) = Ok meas_z /\
    forall r rabi_sched b basis meas_sched c,
      nth_error rabi_schedules r = Some rabi_sched ->
      nth_error (bases meas_x meas_y meas_z) b = Some (basis, meas_sched) ->
      (c < 2)%nat ->
      exists sched,
        nth_error schedules (6 * r + 2 * b + c) = Some sched /\
        tomography_sched flip_ctrl (buffer backend) rabi_sched basis meas_sched
          (Z.of_nat c) = Ok sched.
Proof.
  unfold cr_tomography_schedules. intros H.
  apply bind_Ok_inv in H as (flip_ctrl & Hflip & H).
  apply bind_Ok_inv in H as (meas_qubits & Hmq & H).
  apply bind_Ok_inv in H as (measure & Hmeasure & H).
  apply bind_Ok_inv in H as (xproj_sched & Hx & H).
  apply bind_Ok_inv in H as (yproj_sched & Hy & H).
  apply bind_Ok_inv in H as (meas_x & Hmx & H).
  apply bind_Ok_inv in H as (meas_y & Hmy & H).
  apply bind_Ok_inv in H as (meas_z & Hmz & H).
  exists flip_ctrl, meas_qubits, measure, xproj_sched, yproj_sched, meas_x, meas_y, meas_z.
  repeat (split; [assumption |]).
  rewrite tomography_loops in H.
  apply bind_Ok_inv in H as (groups & E6 & H). injection H as <-.
  apply map_each_Forall2 in E6.
  assert (Forall (fun g => length g = 6%nat) groups) as Hsix.
  { clear -E6. induction E6 as [| rabi g l l' Hg _ IH]; constructor.
    - apply tomography_group_six in Hg as (? & ? & ? & ? & ? & ? & -> & _).
      reflexivity.
    - exact IH. }
  intros r rabi_sched b basis meas_sched c Hr Hb Hc.
  destruct (Forall2_nth_error_l _ _ _ E6 r rabi_sched Hr) as (g & Hg & Hgroup).
  apply tomography_group_six in Hgroup
    as (x0 & x1 & y0 & y1 & z0 & z1 & -> & Hx0 & Hx1 & Hy0 & Hy1 & Hz0 & Hz1).
  assert (b < 3)%nat as Hb3.
  { assert (nth_error (bases meas_x meas_y meas_z) b <> None) as Hn
      by (rewrite Hb; discriminate).
    apply nth_error_Some in Hn. simpl in Hn. exact Hn. }
  replace (6 * r + 2 * b + c)%nat with (6 * r + (2 * b + c))%nat by lia.
  rewrite (nth_error_concat_six groups Hsix r _ (2 * b + c) Hg) by lia.
  destruct b as [| [| [| b]]]; [| | | lia];
    destruct c as [| [| c]]; try lia;
    simpl in Hb; injection Hb as <- <-; simpl;
    eexists; (split; [reflexivity | eassumption]).
Qed.

Ltac concrete_slots :=
  unfold well_timed, proper; simpl;
  repeat constructor; unfold start_of, stop_of; simpl; lia.

(** ** Further properties of the tomography wrapper *)

(** X1: with a buffer that is not negative, the calibrated [x],
    [measure] and [u2] schedules present and beginning at times that are
    not negative, and Rabi schedules of that kind named by integers,
    [cr_tomography_schedules] returns, six schedules per Rabi schedule:
    none of its insertions collides with what is already placed. *)
Theorem tomography_returns_six_per_rabi :
  forall c_qubit t_qubit backend rabi_schedules cmd_def
         meas_qubits flip_ctrl measure xproj_sched yproj_sched,
    0 <= buffer backend ->
    index (meas_map backend) 0 = Ok meas_qubits ->
    get (resolve_cmd_def backend cmd_def) "x" [c_qubit] [] = Ok flip_ctrl ->
    get (resolve_cmd_def backend cmd_def) "measure" meas_qubits [] = Ok measure ->
    get (resolve_cmd_def backend cmd_def) "u2" [t_qubit] x_params = Ok xproj_sched ->
    get (resolve_cmd_def backend cmd_def) "u2" [t_qubit] y_params = Ok yproj_sched ->
    well_timed flip_ctrl -> well_timed measure ->
    well_timed xproj_sched -> well_timed yproj_sched ->
    Forall (fun rabi_sched =>
              well_timed rabi_sched /\ exists index, name rabi_sched = VInt index)
           rabi_schedules ->
    exists schedules,
      cr_tomography_schedules c_qubit t_qubit backend rabi_schedules cmd_def
      = Ok schedules /\
      length schedules = (6 * length rabi_schedules)%nat.
Proof.
  intros. eapply cr_tomography_schedules_returns; eassumption.
Qed.

Lemma tomography_returns_six_per_rabi_witness :
  exists schedules,
    cr_tomography_schedules 0 1 Example.backend [rabi_delay; rabi_empty] None
    = Ok schedules /\
    length schedules = 12%nat.
Proof.
  apply (tomography_returns_six_per_rabi 0 1 Example.backend [rabi_delay; rabi_empty]
           None [0; 1] (Example.x_gate 0) Example.measure_all
           (Example.u2_gate 1 pi) (Example.u2_gate 1 (PrimFloat.mul 0.5%float pi))).
  - simpl. lia.
  - reflexivity.
  - reflexivity.
  - reflexivity.
  - reflexivity.
  - reflexivity.
  - concrete_slots.
  - concrete_slots.
  - concrete_slots.
  - concrete_slots.
  - repeat constructor; try concrete_slots; eexists; reflexivity.
Defined.

Lemma basis_schedule_duration (rot measure meas : Schedule) (pd : Z) :
  instructions meas = instructions rot ++ shift_timed pd (instructions measure) ->
  duration rot <= pd ->
  proper measure -> instructions measure <> [] ->
  duration meas = pd + duration measure /\
  exists a, In a (instructions meas) /\ 0 <= stop_of a.
Proof.
  intros Hm Hpd Hproper Hne.
  pose proof (duration_nonneg rot) as Hrot.
  destruct (proper_occupied measure Hproper Hne) as (a & Ha & Hstop).
  assert (0 <= pd) as Hpd0 by lia.
  split.
  - change (duration meas) with (last_stop (instructions meas)).
    rewrite Hm, last_stop_app.
    rewrite (last_stop_shift pd (instructions measure) Hpd0)
      by (exists a; split; assumption).
    change (last_stop (instructions rot)) with (duration rot).
    change (last_stop (instructions measure)) with (duration measure).
    pose proof (duration_nonneg measure). lia.
  - exists (pd + fst a, snd a). split.
    + rewrite Hm. apply in_or_app. right. unfold shift_timed.
      apply in_map_iff. exists a. split; [reflexivity | exact Ha].
    + unfold stop_of in *. simpl. lia.
Qed.

(** X2: every tomography schedule of a Rabi schedule that has an
    instruction lasts
    [flip + buffer + rabi + buffer + max(xproj, yproj) + buffer + measure]
    (the durations of the calibrated schedules and of the Rabi
    schedule), whatever the basis and the control state. *)
Theorem tomography_schedules_last_equally_long :
  forall c_qubit t_qubit backend rabi_schedules cmd_def schedules
         meas_qubits flip_ctrl measure xproj_sched yproj_sched,
    cr_tomography_schedules c_qubit t_qubit backend rabi_schedules cmd_def
    = Ok schedules ->
    index (meas_map backend) 0 = Ok meas_qubits ->
    get (resolve_cmd_def backend cmd_def) "x" [c_qubit] [] = Ok flip_ctrl ->
    get (resolve_cmd_def backend cmd_def) "measure" meas_qubits [] = Ok measure ->
    get (resolve_cmd_def backend cmd_def) "u2" [t_qubit] x_params = Ok xproj_sched ->
    get (resolve_cmd_def backend cmd_def) "u2" [t_qubit] y_params = Ok yproj_sched ->
    0 <= buffer backend ->
    proper measure -> instructions measure <> [] ->
    forall r rabi_sched b c,
      nth_error rabi_schedules r = Some rabi_sched ->
      proper rabi_sched -> instructions rabi_sched <> [] ->
      (b < 3)%nat -> (c < 2)%nat ->
      exists sched,
        nth_error schedules (6 * r + 2 * b + c) = Some sched /\
        duration sched
        = duration flip_ctrl + buffer backend
          + duration rabi_sched + buffer backend
          + (Z.max (duration xproj_sched) (duration yproj_sched) + buffer backend
             + duration measure).
Proof.
  intros c_qubit t_qubit backend rabi_schedules cmd_def schedules
    meas_qubits flip_ctrl measure xproj_sched yproj_sched
    H Hmq Hflip Hmeasure Hx Hy Hbuf Pmeasure Nmeasure
    r rabi_sched b c Hr Prabi Nrabi Hb Hc.
  apply cr_tomography_schedules_inv_full in H
    as (flip' & mq' & measure' & xproj' & yproj' & meas_x & meas_y & meas_z
        & Hflip' & Hmq' & Hmeasure' & Hx' & Hy' & Hmx & Hmy & Hmz & Hnth).
  rewrite Hflip in Hflip'. injection Hflip' as <-.
  rewrite Hmq in Hmq'. injection Hmq' as <-.
  rewrite Hmeasure in Hmeasure'. injection Hmeasure' as <-.
  rewrite Hx in Hx'. injection Hx' as <-.
  rewrite Hy in Hy'. injection Hy' as <-.
  set (pd := proj_delay_of xproj_sched yproj_sched (buffer backend)) in *.
  assert (duration xproj_sched <= pd /\ duration yproj_sched <= pd) as [Hpx Hpy]
    by (unfold pd, proj_delay_of; lia).
  apply insert_Ok_inv in Hmx as [_ Hmx].
  apply insert_Ok_inv in Hmy as [_ Hmy].
  assert (instructions meas_z
          = instructions (empty VNone) ++ shift_timed pd (instructions measure))
    as Hmz'.
  { unfold shift in Hmz. apply bind_Ok_inv in Hmz as (l & Hl & Hmz).
    injection Hmz as <-. apply place_Ok_inv in Hl. exact Hl. }
  destruct (nth_error (bases meas_x meas_y meas_z) b) as [[basis meas_sched] |] eqn:Eb.
  2: { apply nth_error_None in Eb. simpl in Eb. lia. }
  assert (duration meas_sched = pd + duration measure /\
          exists a, In a (instructions meas_sched) /\ 0 <= stop_of a)
    as [Hdm Hocc].
  { destruct b as [| [| [| b]]]; [| | | lia]; simpl in Eb; injection Eb as <- <-.
    - apply (basis_schedule_duration xproj_sched); assumption.
    - apply (basis_schedule_duration yproj_sched); assumption.
    - apply (basis_schedule_duration (empty VNone)); try assumption.
      unfold duration. simpl. pose proof (duration_nonneg xproj_sched). lia. }
  destruct (Hnth r rabi_sched b basis meas_sched c Hr Eb Hc) as (sched & Hs & Hts).
  exists sched. split; [exact Hs |].
  apply tomography_sched_inv in Hts as (index & _ & _ & Hinst).
  cbv zeta in Hinst.
  change (duration (mkSchedule VNone
                      (before_measurement flip_ctrl (buffer backend) rabi_sched
                         (Z.of_nat c))))
    with (last_stop (before_measurement flip_ctrl (buffer backend) rabi_sched
                       (Z.of_nat c))) in Hinst.
  pose proof (duration_nonneg flip_ctrl) as Hdf.
  pose proof (duration_nonneg rabi_sched) as Hdr.
  assert (last_stop (before_measurement flip_ctrl (buffer backend) rabi_sched
                       (Z.of_nat c))
          = duration flip_ctrl + buffer backend + duration rabi_sched) as Hbefore.
  { unfold before_measurement. rewrite last_stop_app.
    rewrite (last_stop_shift (duration flip_ctrl + buffer backend)
               (instructions rabi_sched))
      by (try lia; apply proper_occupied; assumption).
    change (last_stop (instructions rabi_sched)) with (duration rabi_sched).
    assert (last_stop (if Z.of_nat c =? 0 then []
                       else shift_timed 0 (instructions flip_ctrl))
            <= duration flip_ctrl) as Hle.
    { destruct (Z.of_nat c =? 0).
      - exact Hdf.
      - rewrite shift_timed_0. apply Z.le_refl. }
    lia. }
  rewrite Hbefore in Hinst.
  change (duration sched) with (last_stop (instructions sched)).
  rewrite Hinst, last_stop_app, Hbefore.
  rewrite last_stop_shift by (try lia; exact Hocc).
  change (last_stop (instructions meas_sched)) with (duration meas_sched).
  rewrite Hdm. unfold pd, proj_delay_of.
  pose proof (duration_nonneg measure).
  pose proof (duration_nonneg xproj_sched). lia.
Qed.

Lemma tomography_schedules_last_equally_long_witness :
  exists sched,
    nth_error
      (match cr_tomography_schedules 0 1 Example.backend [rabi_delay] None with
       | Ok schedules => schedules
       | Raise _ => []
       end) 5 = Some sched /\
    duration sched = 4 + 2 + 10 + 2 + (Z.max 4 4 + 2 + 8).
Proof.
  assert (exists schedules,
             cr_tomography_schedules 0 1 Example.backend [rabi_delay] None
             = Ok schedules) as (schedules & E).
  { vm_compute. eauto. }
  destruct (tomography_schedules_last_equally_long 0 1 Example.backend [rabi_delay]
              None schedules [0; 1] (Example.x_gate 0) Example.measure_all
              (Example.u2_gate 1 pi) (Example.u2_gate 1 (PrimFloat.mul 0.5%float pi))
              E eq_refl eq_refl eq_refl eq_refl eq_refl
              ltac:(simpl; lia) ltac:(concrete_slots) ltac:(discriminate)
              0%nat rabi_delay 2%nat 1%nat eq_refl
              ltac:(concrete_slots) ltac:(discriminate) ltac:(lia) ltac:(lia))
    as (sched & Hs & Hd).
  exists sched. rewrite E. split; [exact Hs | exact Hd].
Defined.

(** The measurement schedule that the wrapper holds for basis [b] has
    the instructions of [basis_measurement]. *)
Lemma basis_instructions xproj_sched yproj_sched measure buffer meas_x meas_y meas_z b :
  insert xproj_sched (proj_delay_of xproj_sched yproj_sched buffer) measure
  = Ok meas_x ->
  insert yproj_sched (proj_delay_of xproj_sched yproj_sched buffer) measure
  = Ok meas_y ->
  shift measure (proj_delay_of xproj_sched yproj_sched buffer) = Ok meas_z ->
  (b < 3)%nat ->
  exists basis meas_sched,
    nth_error (bases meas_x meas_y meas_z) b = Some (basis, meas_sched) /\
    instructions meas_sched
    = basis_measurement xproj_sched yproj_sched measure buffer b.
Proof.
  intros Hmx Hmy Hmz Hb.
  apply insert_Ok_inv in Hmx as [_ Hmx].
  apply insert_Ok_inv in Hmy as [_ Hmy].
  assert (instructions meas_z
          = shift_timed (proj_delay_of xproj_sched yproj_sched buffer)
              (instructions measure)) as Hmz'.
  { unfold shift in Hmz. apply bind_Ok_inv in Hmz as (l & Hl & Hmz).
    injection Hmz as <-. apply place_Ok_inv in Hl. exact Hl. }
  destruct b as [| [| [| b]]]; [| | | lia]; simpl; do 2 eexists;
    (split; [reflexivity | assumption]).
Qed.

(** X3: every tomography schedule consists of the flip (for control
    state 1) and the Rabi schedule, followed by the measurement schedule
    of its basis (the [u2] rotation for x and y, and the measurement
    after the projection delay) inserted one buffer after the last of
    them stops; each instruction of that measurement schedule starts at
    least one buffer after every instruction of the flip and of the
    Rabi schedule has stopped, provided the two rotations begin at
    times that are not negative. *)
Theorem measurement_starts_after_flip_and_rabi :
  forall c_qubit t_qubit backend rabi_schedules cmd_def schedules
         meas_qubits flip_ctrl measure xproj_sched yproj_sched,
    cr_tomography_schedules c_qubit t_qubit backend rabi_schedules cmd_def
    = Ok schedules ->
    index (meas_map backend) 0 = Ok meas_qubits ->
    get (resolve_cmd_def backend cmd_def) "x" [c_qubit] [] = Ok flip_ctrl ->
    get (resolve_cmd_def backend cmd_def) "measure" meas_qubits [] = Ok measure ->
    get (resolve_cmd_def backend cmd_def) "u2" [t_qubit] x_params = Ok xproj_sched ->
    get (resolve_cmd_def backend cmd_def) "u2" [t_qubit] y_params = Ok yproj_sched ->
    well_timed xproj_sched -> well_timed yproj_sched ->
    forall r rabi_sched b c,
      nth_error rabi_schedules r = Some rabi_sched ->
      (b < 3)%nat -> (c < 2)%nat ->
      exists sched,
        nth_error schedules (6 * r + 2 * b + c) = Some sched /\
        instructions sched
        = before_measurement flip_ctrl (buffer backend) rabi_sched (Z.of_nat c)
          ++ shift_timed
               (last_stop (before_measurement flip_ctrl (buffer backend) rabi_sched
                             (Z.of_nat c))
                + buffer backend)
               (basis_measurement xproj_sched yproj_sched measure (buffer backend) b) /\
        forall a m,
          In a (before_measurement flip_ctrl (buffer backend) rabi_sched (Z.of_nat c)) ->
          In m (shift_timed
                  (last_stop (before_measurement flip_ctrl (buffer backend) rabi_sched
                                (Z.of_nat c))
                   + buffer backend)
                  (basis_measurement xproj_sched yproj_sched measure
                     (buffer backend) b)) ->
          stop_of a + buffer backend <= start_of m.
Proof.
  intros c_qubit t_qubit backend rabi_schedules cmd_def schedules
    meas_qubits flip_ctrl measure xproj_sched yproj_sched
    H Hmq Hflip Hmeasure Hx Hy Wx Wy r rabi_sched b c Hr Hb Hc.
  apply cr_tomography_schedules_inv_full in H
    as (flip' & mq' & measure' & xproj' & yproj' & meas_x & meas_y & meas_z
        & Hflip' & Hmq' & Hmeasure' & Hx' & Hy' & Hmx & Hmy & Hmz & Hnth).
  rewrite Hflip in Hflip'. injection Hflip' as <-.
  rewrite Hmq in Hmq'. injection Hmq' as <-.
  rewrite Hmeasure in Hmeasure'. injection Hmeasure' as <-.
  rewrite Hx in Hx'. injection Hx' as <-.
  rewrite Hy in Hy'. injection Hy' as <-.
  assert (Forall (fun ti => 0 <= start_of ti)
            (shift_timed (proj_delay_of xproj_sched yproj_sched (buffer backend))
               (instructions measure))) as Wm.
  { pose proof Hmx as Hmx'. unfold insert in Hmx'.
    apply bind_Ok_inv in Hmx' as (l & Hl & _).
    apply (place_Ok_starts _ _ _ _ Hl). }
  destruct (basis_instructions _ _ _ _ _ _ _ b Hmx Hmy Hmz Hb)
    as (basis & meas_sched & Eb & Hbasis).
  assert (Forall (fun ti => 0 <= start_of ti)
            (basis_measurement xproj_sched yproj_sched measure (buffer backend) b))
    as Wmeas.
  { unfold basis_measurement.
    destruct b as [| [| b]]; [apply Forall_app; split; assumption
                             | apply Forall_app; split; assumption
                             | exact Wm]. }
  destruct (Hnth r rabi_sched b basis meas_sched c Hr Eb Hc) as (sched & Hs & Hts).
  apply tomography_sched_inv in Hts as (index & _ & _ & Hinst).
  cbv zeta in Hinst. rewrite Hbasis in Hinst.
  exists sched. split; [exact Hs |]. split; [exact Hinst |].
  intros a m Ha Hm.
  apply in_shift_timed in Hm as (m0 & Hm0 & -> & _).
  rewrite Forall_forall in Wmeas. specialize (Wmeas m0 Hm0).
  pose proof (last_stop_ge _ a Ha). lia.
Qed.

(** The schedule of control state 1 and basis x on the example backend:
    the flip, the delay of [rabi_delay] at 6, and the rotation and the
    measurement from 18 = 16 + 2 on. *)
Lemma measurement_starts_after_flip_and_rabi_witness :
  exists sched,
    nth_error
      (match cr_tomography_schedules 0 1 Example.backend [rabi_delay] None with
       | Ok schedules => schedules
       | Raise _ => []
       end) 1 = Some sched /\
    instructions sched
    = before_measurement (Example.x_gate 0) 2 rabi_delay 1
      ++ shift_timed (16 + 2)
           (basis_measurement (Example.u2_gate 1 pi)
              (Example.u2_gate 1 (PrimFloat.mul 0.5%float pi))
              Example.measure_all 2 0) /\
    forall a m,
      In a (before_measurement (Example.x_gate 0) 2 rabi_delay 1) ->
      In m (shift_timed (16 + 2)
              (basis_measurement (Example.u2_gate 1 pi)
                 (Example.u2_gate 1 (PrimFloat.mul 0.5%float pi))
                 Example.measure_all 2 0)) ->
      stop_of a + 2 <= start_of m.
Proof.
  assert (exists schedules,
             cr_tomography_schedules 0 1 Example.backend [rabi_delay] None
             = Ok schedules) as (schedules & E).
  { vm_compute. eauto. }
  destruct (measurement_starts_after_flip_and_rabi 0 1 Example.backend [rabi_delay]
              None schedules [0; 1] (Example.x_gate 0) Example.measure_all
              (Example.u2_gate 1 pi) (Example.u2_gate 1 (PrimFloat.mul 0.5%float pi))
              E eq_refl eq_refl eq_refl eq_refl eq_refl
              ltac:(concrete_slots) ltac:(concrete_slots)
              0%nat rabi_delay 0%nat 1%nat eq_refl ltac:(lia) ltac:(lia))
    as (sched & Hs & Hi & Hsep).
  exists sched. rewrite E. split; [exact Hs |]. split; [exact Hi | exact Hsep].
Defined.

(** X4: for a Rabi schedule without instructions the measurement
    schedule of the basis (the [u2] rotation for x and y, and the
    measurement after the projection delay) is all there is for control
    state 0, inserted at the offset [buffer]; for control state 1 it
    follows the flip, inserted at [flip_ctrl.duration + buffer]: the
    two schedules are not aligned. *)
Theorem empty_rabi_measurement_offsets :
  forall c_qubit t_qubit backend rabi_schedules cmd_def schedules
         meas_qubits flip_ctrl measure xproj_sched yproj_sched,
    cr_tomography_schedules c_qubit t_qubit backend rabi_schedules cmd_def
    = Ok schedules ->
    index (meas_map backend) 0 = Ok meas_qubits ->
    get (resolve_cmd_def backend cmd_def) "x" [c_qubit] [] = Ok flip_ctrl ->
    get (resolve_cmd_def backend cmd_def) "measure" meas_qubits [] = Ok measure ->
    get (resolve_cmd_def backend cmd_def) "u2" [t_qubit] x_params = Ok xproj_sched ->
    get (resolve_cmd_def backend cmd_def) "u2" [t_qubit] y_params = Ok yproj_sched ->
    forall r rabi_sched b,
      nth_error rabi_schedules r = Some rabi_sched ->
      instructions rabi_sched = [] ->
      (b < 3)%nat ->
      exists sched0 sched1,
        nth_error schedules (6 * r + 2 * b) = Some sched0 /\
        nth_error schedules (6 * r + 2 * b + 1) = Some sched1 /\
        instructions sched0
        = shift_timed (buffer backend)
            (basis_measurement xproj_sched yproj_sched measure (buffer backend) b) /\
        instructions sched1
        = instructions flip_ctrl
          ++ shift_timed (duration flip_ctrl + buffer backend)
               (basis_measurement xproj_sched yproj_sched measure (buffer backend) b).
Proof.
  intros c_qubit t_qubit backend rabi_schedules cmd_def schedules
    meas_qubits flip_ctrl measure xproj_sched yproj_sched
    H Hmq Hflip Hmeasure Hx Hy r rabi_sched b Hr Hempty Hb.
  apply cr_tomography_schedules_inv_full in H
    as (flip' & mq' & measure' & xproj' & yproj' & meas_x & meas_y & meas_z
        & Hflip' & Hmq' & Hmeasure' & Hx' & Hy' & Hmx & Hmy & Hmz & Hnth).
  rewrite Hflip in Hflip'. injection Hflip' as <-.
  rewrite Hmq in Hmq'. injection Hmq' as <-.
  rewrite Hmeasure in Hmeasure'. injection Hmeasure' as <-.
  rewrite Hx in Hx'. injection Hx' as <-.
  rewrite Hy in Hy'. injection Hy' as <-.
  destruct (basis_instructions _ _ _ _ _ _ _ b Hmx Hmy Hmz Hb)
    as (basis & meas_sched & Eb & Hbasis).
  destruct (Hnth r rabi_sched b basis meas_sched 0%nat Hr Eb ltac:(lia))
    as (sched0 & Hs0 & Hts0).
  destruct (Hnth r rabi_sched b basis meas_sched 1%nat Hr Eb ltac:(lia))
    as (sched1 & Hs1 & Hts1).
  apply tomography_sched_inv in Hts0 as (index0 & _ & _ & Hi0).
  apply tomography_sched_inv in Hts1 as (index1 & _ & _ & Hi1).
  cbv zeta in Hi0, Hi1. unfold before_measurement in Hi0, Hi1.
  rewrite Hempty in Hi0, Hi1. simpl in Hi0, Hi1.
  rewrite shift_timed_0, app_nil_r in Hi1.
  rewrite Hbasis in Hi0, Hi1.
  exists sched0, sched1.
  rewrite Nat.add_0_r in Hs0.
  split; [exact Hs0 |]. split; [exact Hs1 |]. split.
  - exact Hi0.
  - exact Hi1.
Qed.

(** The two schedules of the z basis for an empty Rabi schedule on the
    example backend: the measurement, delayed by 6 in its schedule,
    starts at 2 + 6 for control state 0 and at 4 + 2 + 6 for control
    state 1. *)
Lemma empty_rabi_measurement_offsets_witness :
  exists sched0 sched1,
    nth_error
      (match cr_tomography_schedules 0 1 Example.backend [rabi_empty] None with
       | Ok schedules => schedules
       | Raise _ => []
       end) 4 = Some sched0 /\
    nth_error
      (match cr_tomography_schedules 0 1 Example.backend [rabi_empty] None with
       | Ok schedules => schedules
       | Raise _ => []
       end) 5 = Some sched1 /\
    instructions sched0
    = shift_timed 2 (shift_timed 6 (instructions Example.measure_all)) /\
    instructions sched1
    = instructions (Example.x_gate 0)
      ++ shift_timed (4 + 2) (shift_timed 6 (instructions Example.measure_all)).
Proof.
  assert (exists schedules,
             cr_tomography_schedules 0 1 Example.backend [rabi_empty] None
             = Ok schedules) as (schedules & E).
  { vm_compute. eauto. }
  destruct (empty_rabi_measurement_offsets 0 1 Example.backend [rabi_empty]
              None schedules [0; 1] (Example.x_gate 0) Example.measure_all
              (Example.u2_gate 1 pi) (Example.u2_gate 1 (PrimFloat.mul 0.5%float pi))
              E eq_refl eq_refl eq_refl eq_refl eq_refl
              0%nat rabi_empty 2%nat eq_refl eq_refl ltac:(lia))
    as (sched0 & sched1 & Hs0 & Hs1 & Hi0 & Hi1).
  exists sched0, sched1. rewrite E.
  split; [exact Hs0 |]. split; [exact Hs1 |]. split; [exact Hi0 | exact Hi1].
Defined.

(** X5: with a buffer that is not negative and a Rabi schedule that
    has an instruction, the tomography schedule of control state 1 is
    the schedule of control state 0 of the same Rabi schedule and basis
    with the instructions of the flip in front, at their own times. *)
Theorem control_state_1_prepends_the_flip :
  forall c_qubit t_qubit backend rabi_schedules cmd_def schedules flip_ctrl,
    cr_tomography_schedules c_qubit t_qubit backend rabi_schedules cmd_def
    = Ok schedules ->
    get (resolve_cmd_def backend cmd_def) "x" [c_qubit] [] = Ok flip_ctrl ->
    0 <= buffer backend ->
    forall r rabi_sched b,
      nth_error rabi_schedules r = Some rabi_sched ->
      proper rabi_sched -> instructions rabi_sched <> [] ->
      (b < 3)%nat ->
      exists sched0 sched1,
        nth_error schedules (6 * r + 2 * b) = Some sched0 /\
        nth_error schedules (6 * r + 2 * b + 1) = Some sched1 /\
        instructions sched1 = instructions flip_ctrl ++ instructions sched0.
Proof.
  intros c_qubit t_qubit backend rabi_schedules cmd_def schedules flip_ctrl
    H Hflip Hbuf r rabi_sched b Hr Prabi Nrabi Hb.
  apply cr_tomography_schedules_inv in H
    as (flip' & meas_x & meas_y & meas_z & Hflip' & _ & Hnth).
  rewrite Hflip in Hflip'. injection Hflip' as <-.
  destruct (nth_error (bases meas_x meas_y meas_z) b) as [[basis meas_sched] |] eqn:Eb.
  2: { apply nth_error_None in Eb. simpl in Eb. lia. }
  destruct (Hnth r rabi_sched b basis meas_sched 0%nat Hr Eb ltac:(lia))
    as (sched0 & Hs0 & Hts0).
  destruct (Hnth r rabi_sched b basis meas_sched 1%nat Hr Eb ltac:(lia))
    as (sched1 & Hs1 & Hts1).
  apply tomography_sched_inv in Hts0 as (index0 & _ & _ & Hi0).
  apply tomography_sched_inv in Hts1 as (index1 & _ & _ & Hi1).
  cbv zeta in Hi0, Hi1.
  change (duration (mkSchedule VNone ?l)) with (last_stop l) in Hi0, Hi1.
  unfold before_measurement in Hi0, Hi1. simpl in Hi0, Hi1.
  rewrite shift_timed_0 in Hi1.
  pose proof (duration_nonneg flip_ctrl) as Hdf.
  pose proof (duration_nonneg rabi_sched) as Hdr.
  assert (last_stop (shift_timed (duration flip_ctrl + buffer backend)
                       (instructions rabi_sched))
          = duration flip_ctrl + buffer backend + duration rabi_sched) as Hshift.
  { rewrite last_stop_shift by (try lia; apply proper_occupied; assumption).
    reflexivity. }
  rewrite last_stop_app in Hi1. rewrite Hshift in Hi0, Hi1.
  change (last_stop (instructions flip_ctrl)) with (duration flip_ctrl) in Hi1.
  replace (Z.max (duration flip_ctrl)
             (duration flip_ctrl + buffer backend + duration rabi_sched))
    with (duration flip_ctrl + buffer backend + duration rabi_sched) in Hi1 by lia.
  exists sched0, sched1. rewrite Nat.add_0_r in Hs0.
  split; [exact Hs0 |]. split; [exact Hs1 |].
  rewrite Hi1, Hi0, <- app_assoc. reflexivity.
Qed.

Lemma control_state_1_prepends_the_flip_witness :
  exists sched0 sched1,
    nth_error
      (match cr_tomography_schedules 0 1 Example.backend [rabi_delay] None with
       | Ok schedules => schedules
       | Raise _ => []
       end) 2 = Some sched0 /\
    nth_error
      (match cr_tomography_schedules 0 1 Example.backend [rabi_delay] None with
       | Ok schedules => schedules
       | Raise _ => []
       end) 3 = Some sched1 /\
    instructions sched1 = instructions (Example.x_gate 0) ++ instructions sched0.
Proof.
  assert (exists schedules,
             cr_tomography_schedules 0 1 Example.backend [rabi_delay] None
             = Ok schedules) as (schedules & E).
  { vm_compute. eauto. }
  destruct (control_state_1_prepends_the_flip 0 1 Example.backend [rabi_delay]
              None schedules (Example.x_gate 0) E eq_refl ltac:(simpl; lia)
              0%nat rabi_delay 1%nat eq_refl
              ltac:(concrete_slots) ltac:(discriminate) ltac:(lia))
    as (sched0 & sched1 & Hs0 & Hs1 & Hi).
  exists sched0, sched1. rewrite E. repeat split; assumption.
Defined.

(** ** Further properties of channel resolution *)

Lemma in_dedup (seen l : list Channel) (c : Channel) :
  In c (dedup seen l) -> In c l.
Proof.
  revert seen. induction l as [| a l IH]; intros seen H; simpl in H.
  - contradiction.
  - destruct (existsb (Channel_eqb a) seen).
    + right. apply (IH _ H).
    + destruct H as [<- | H]; [left; reflexivity | right; apply (IH _ H)].
Qed.

Lemma in_channels (s : Schedule) (c : Channel) :
  In c (channels s) ->
  exists ti, In ti (instructions s) /\ In c (inst_channels (snd ti)).
Proof.
  unfold channels. intros H. apply in_dedup in H.
  apply in_flat_map in H. exact H.
Qed.

Lemma get_channels_Ok_inv c_qubit t_qubit backend cmd_def c_drive t_drive cr_drive :
  _get_channels c_qubit t_qubit backend cmd_def = Ok (c_drive, t_drive, cr_drive) ->
  exists cx_ref,
    resolve_cmd_def backend cmd_def "cx" [c_qubit; t_qubit] [] = Some cx_ref /\
    find is_ControlChannel (channels (filter_pulse cx_ref)) = Some cr_drive /\
    qubit_drive backend c_qubit = Ok c_drive /\
    qubit_drive backend t_qubit = Ok t_drive.
Proof.
  unfold _get_channels, get. intros H.
  destruct (resolve_cmd_def backend cmd_def "cx" [c_qubit; t_qubit] [])
    as [cx_ref |]; [| discriminate H].
  exists cx_ref. split; [reflexivity |]. simpl in H.
  destruct (find is_ControlChannel (channels (filter_pulse cx_ref))) as [ch |];
    [| discriminate H].
  simpl in H.
  destruct (qubit_drive backend c_qubit) as [cd |]; [| discriminate H].
  destruct (qubit_drive backend t_qubit) as [td |]; [| discriminate H].
  simpl in H. injection H as <- <- <-. repeat split.
Qed.

(** X6: the cross-resonance channel that channel resolution returns is
    a control channel on which the [cx] of the pair plays a sample
    pulse; a control channel that the [cx] only shifts the frame of is
    never returned.  The two other channels are drive channels of
    qubits of the backend. *)
Theorem cr_drive_plays_a_pulse_of_cx :
  forall c_qubit t_qubit backend cmd_def c_drive t_drive cr_drive,
    _get_channels c_qubit t_qubit backend cmd_def = Ok (c_drive, t_drive, cr_drive) ->
    (exists cx_ref ti samples,
       resolve_cmd_def backend cmd_def "cx" [c_qubit; t_qubit] [] = Some cx_ref /\
       In ti (instructions cx_ref) /\
       command (snd ti) = SamplePulse samples /\
       In cr_drive (inst_channels (snd ti)) /\
       is_ControlChannel cr_drive = true) /\
    (exists i j,
       c_drive = DriveChannel i /\ t_drive = DriveChannel j /\
       0 <= i < n_qubits backend /\ 0 <= j < n_qubits backend).
Proof.
  intros c t backend cmd_def c_drive t_drive cr_drive H.
  apply get_channels_Ok_inv in H as (cx_ref & Hcx & Hfind & Hc & Ht). split.
  - apply find_some in Hfind as [Hin Hctl].
    apply in_channels in Hin as (ti & Hti & Hch).
    unfold filter_pulse in Hti. simpl in Hti.
    apply filter_In in Hti as [Hti Hpulse].
    apply in_sorted_instructions in Hti.
    unfold is_PulseInstruction in Hpulse.
    destruct (command (snd ti)) as [samples | | | |] eqn:Ecmd; try discriminate Hpulse.
    exists cx_ref, ti, samples. repeat split; assumption.
  - assert (forall q d, qubit_drive backend q = Ok d ->
                        exists i, d = DriveChannel i /\ 0 <= i < n_qubits backend)
      as Hdrive.
    { intros q d. unfold qubit_drive.
      destruct ((0 <=? (if q <? 0 then q + Z.max 0 (n_qubits backend) else q))
                && ((if q <? 0 then q + Z.max 0 (n_qubits backend) else q)
                    <? Z.max 0 (n_qubits backend))) eqn:E; [| discriminate].
      intros Hd. injection Hd as <-. eexists. split; [reflexivity |].
      apply andb_true_iff in E as [E1 E2].
      apply Z.leb_le in E1. apply Z.ltb_lt in E2. lia. }
    destruct (Hdrive _ _ Hc) as (i & -> & Hi).
    destruct (Hdrive _ _ Ht) as (j & -> & Hj).
    exists i, j. repeat split; lia.
Qed.

Lemma cr_drive_plays_a_pulse_of_cx_witness :
  exists ti samples,
    In ti (instructions (Example.cx_gate 0 1 0)) /\
    command (snd ti) = SamplePulse samples /\
    In (ControlChannel 0) (inst_channels (snd ti)).
Proof.
  destruct (cr_drive_plays_a_pulse_of_cx 0 1 Example.backend None
              (DriveChannel 0) (DriveChannel 1) (ControlChannel 0) eq_refl)
    as [(cx_ref & ti & samples & Hcx & Hti & Hcmd & Hch & _) _].
  injection Hcx as <-. exists ti, samples. repeat split; assumption.
Defined.

(** X7: once the [cx] of the pair is found and plays a pulse on a
    control channel, an index below [-n_qubits] or from [n_qubits] on
    ends channel resolution with an [IndexError], and an index between
    [-n_qubits] and [-1] is counted from the end, as in a Python list:
    the drive channel returned is the one of qubit [index + n_qubits]. *)
Theorem get_channels_index_range :
  forall c_qubit t_qubit backend cmd_def cx_ref,
    resolve_cmd_def backend cmd_def "cx" [c_qubit; t_qubit] [] = Some cx_ref ->
    (exists ch, In ch (channels (filter_pulse cx_ref)) /\
                is_ControlChannel ch = true) ->
    (c_qubit < - n_qubits backend \/ n_qubits backend <= c_qubit \/
     t_qubit < - n_qubits backend \/ n_qubits backend <= t_qubit ->
     _get_channels c_qubit t_qubit backend cmd_def = Raise IndexError) /\
    (- n_qubits backend <= c_qubit < n_qubits backend ->
     - n_qubits backend <= t_qubit < n_qubits backend ->
     exists u,
       _get_channels c_qubit t_qubit backend cmd_def
       = Ok (DriveChannel (c_qubit mod n_qubits backend),
             DriveChannel (t_qubit mod n_qubits backend),
             ControlChannel u)).
Proof.
  intros c t backend cmd_def cx_ref Hcx Hctl.
  destruct (find_control _ Hctl) as (u & Hfind & _).
  assert (forall q,
             (q < - n_qubits backend \/ n_qubits backend <= q ->
              qubit_drive backend q = Raise IndexError) /\
             (- n_qubits backend <= q < n_qubits backend ->
              qubit_drive backend q = Ok (DriveChannel (q mod n_qubits backend))))
    as Hdrive.
  { intros q. unfold qubit_drive. split.
    - intros Hq.
      destruct (Z.ltb_spec q 0);
        match goal with
        | |- (if ?b then _ else _) = _ =>
            replace b with false; [reflexivity |]
        end; symmetry; apply andb_false_iff;
        rewrite Z.leb_gt, Z.ltb_ge; lia.
    - intros Hq.
      destruct (Z.ltb_spec q 0).
      + replace (q mod n_qubits backend) with (q + n_qubits backend).
        * replace (Z.max 0 (n_qubits backend)) with (n_qubits backend) by lia.
          replace (0 <=? q + n_qubits backend) with true
            by (symmetry; apply Z.leb_le; lia).
          replace (q + n_qubits backend <? n_qubits backend) with true
            by (symmetry; apply Z.ltb_lt; lia).
          reflexivity.
        * apply (Z.mod_unique _ _ (-1)); lia.
      + rewrite Z.mod_small by lia.
        replace (0 <=? q) with true by (symmetry; apply Z.leb_le; lia).
        replace (q <? Z.max 0 (n_qubits backend)) with true
          by (symmetry; apply Z.ltb_lt; lia).
        reflexivity. }
  split.
  - intros Hout. unfold _get_channels, get. rewrite Hcx. simpl. rewrite Hfind. simpl.
    destruct (Z_lt_ge_dec c (- n_qubits backend)) as [Hc | Hc].
    + rewrite (proj1 (Hdrive c)) by lia. reflexivity.
    + destruct (Z_lt_ge_dec c (n_qubits backend)) as [Hc' | Hc'].
      * rewrite (proj2 (Hdrive c)) by lia. simpl.
        rewrite (proj1 (Hdrive t)) by lia. reflexivity.
      * rewrite (proj1 (Hdrive c)) by lia. reflexivity.
  - intros Hc Ht. exists u. unfold _get_channels, get. rewrite Hcx. simpl.
    rewrite Hfind. simpl.
    rewrite (proj2 (Hdrive c) Hc), (proj2 (Hdrive t) Ht). reflexivity.
Qed.

(** With the index -1 for the control qubit of a backend of two qubits,
    the control drive is the drive channel of qubit 1. *)
Lemma get_channels_index_range_witness :
  (exists u,
     _get_channels (-1) 1 Example.backend (Some negative_index_cmd_def)
     = Ok (DriveChannel 1, DriveChannel 1, ControlChannel u)) /\
  _get_channels 0 2 Example.backend
    (Some (Example.cmd_def_with (fun _ => Some (Example.cx_gate 0 2 0))))
  = Raise IndexError.
Proof.
  split.
  - destruct (get_channels_index_range (-1) 1 Example.backend
                (Some negative_index_cmd_def) (Example.cx_gate 1 1 0) eq_refl)
      as [_ Hin].
    + exists (ControlChannel 0). split; [vm_compute; tauto | reflexivity].
    + apply Hin; simpl; lia.
  - destruct (get_channels_index_range 0 2 Example.backend
                (Some (Example.cmd_def_with (fun _ => Some (Example.cx_gate 0 2 0))))
                (Example.cx_gate 0 2 0) eq_refl)
      as [Hout _].
    + exists (ControlChannel 0). split; [vm_compute; tauto | reflexivity].
    + apply Hout. simpl. lia.
Defined.

(** ** Missing calibrations and empty inputs *)

Lemma index_head {A : Type} (x : A) (l : list A) : index (x :: l) 0 = Ok x.
Proof. reflexivity. Qed.

(** X8: [cr_tomography_schedules] looks up its calibrations before it
    looks at the Rabi schedules.  Whatever the list, also the empty one:
    without the [x] of the control qubit it raises a [PulseError]; with
    it and an empty [meas_map] an [IndexError]; with both and without
    the [measure] of the first measurement group or one of the two [u2]
    of the target qubit a [PulseError]. *)
Theorem tomography_needs_calibrations :
  forall c_qubit t_qubit backend rabi_schedules cmd_def,
    (resolve_cmd_def backend cmd_def "x" [c_qubit] [] = None ->
     exists msg,
       cr_tomography_schedules c_qubit t_qubit backend rabi_schedules cmd_def
       = Raise (PulseError msg)) /\
    (forall flip_ctrl,
       resolve_cmd_def backend cmd_def "x" [c_qubit] [] = Some flip_ctrl ->
       meas_map backend = [] ->
       cr_tomography_schedules c_qubit t_qubit backend rabi_schedules cmd_def
       = Raise IndexError) /\
    (forall flip_ctrl meas_qubits groups,
       resolve_cmd_def backend cmd_def "x" [c_qubit] [] = Some flip_ctrl ->
       meas_map backend = meas_qubits :: groups ->
       resolve_cmd_def backend cmd_def "measure" meas_qubits [] = None \/
       resolve_cmd_def backend cmd_def "u2" [t_qubit] x_params = None \/
       resolve_cmd_def backend cmd_def "u2" [t_qubit] y_params = None ->
       exists msg,
         cr_tomography_schedules c_qubit t_qubit backend rabi_schedules cmd_def
         = Raise (PulseError msg)).
Proof.
  intros c t backend rabi_schedules cmd_def. repeat split.
  - intros Hx. unfold cr_tomography_schedules, get. rewrite Hx. simpl.
    eexists. reflexivity.
  - intros flip_ctrl Hx Hmm. unfold cr_tomography_schedules, get, index.
    rewrite Hx, Hmm. reflexivity.
  - intros flip_ctrl meas_qubits groups Hx Hmm Hmissing.
    unfold cr_tomography_schedules, get. rewrite Hx, Hmm, index_head.
    cbn [bind].
    unfold x_params, y_params in Hmissing.
    destruct (resolve_cmd_def backend cmd_def "measure" meas_qubits [])
      as [measure |]; [| eexists; reflexivity].
    cbn [bind].
    destruct (resolve_cmd_def backend cmd_def "u2" [t] [("P0", PyInt 0); ("P1", PyFloat pi)])
      as [xproj |]; [| eexists; reflexivity].
    cbn [bind].
    destruct (resolve_cmd_def backend cmd_def "u2" [t]
                [("P0", PyInt 0); ("P1", PyFloat (PrimFloat.mul 0.5%float pi))])
      as [yproj |]; [| eexists; reflexivity].
    destruct Hmissing as [H | [H | H]]; discriminate H.
Qed.

(** X9: on an empty list of durations [cr1_rabi_schedules] returns no
    time and no schedule as soon as channel resolution succeeds, and
    [cr2_rabi_schedules] does so when the [x] of the control qubit is
    calibrated too; without that [x], [cr2_rabi_schedules] raises a
    [PulseError] for every list of durations. *)
Theorem builders_without_durations :
  forall gaussian_square c_qubit t_qubit backend cr_amp sigma risefall
         cancellation_amp cmd_def channels,
    _get_channels c_qubit t_qubit backend cmd_def = Ok channels ->
    cr1_rabi_schedules gaussian_square c_qubit t_qubit backend [] cr_amp sigma
      risefall cancellation_amp cmd_def = Ok ([], []) /\
    (forall echo_pi,
       resolve_cmd_def backend cmd_def "x" [c_qubit] [] = Some echo_pi ->
       cr2_rabi_schedules gaussian_square c_qubit t_qubit backend [] cr_amp sigma
         risefall cancellation_amp cmd_def = Ok ([], [])) /\
    (resolve_cmd_def backend cmd_def "x" [c_qubit] [] = None ->
     forall cr_samples,
     exists msg,
       cr2_rabi_schedules gaussian_square c_qubit t_qubit backend cr_samples cr_amp
         sigma risefall cancellation_amp cmd_def = Raise (PulseError msg)).
Proof.
  intros gs c t backend cr_amp sigma risefall camp cmd_def [[c_drive t_drive] cr_drive]
    Hch.
  assert (_get_channels c t backend (Some (resolve_cmd_def backend cmd_def))
          = Ok (c_drive, t_drive, cr_drive)) as Hch' by exact Hch.
  repeat split.
  - unfold cr1_rabi_schedules. rewrite Hch'. reflexivity.
  - intros echo_pi Hx. unfold cr2_rabi_schedules, get. rewrite Hch'. cbn [bind].
    rewrite Hx. reflexivity.
  - intros Hx cr_samples. unfold cr2_rabi_schedules, get. rewrite Hch'. cbn [bind].
    rewrite Hx. eexists. reflexivity.
Qed.

Lemma builders_without_durations_witness :
  cr1_rabi_schedules Example.gaussian_square 0 1 Example.backend []
    (PyFloat 0.25%float) 2%float 2 None (Some no_flip_cmd_def) = Ok ([], []) /\
  exists msg,
    cr2_rabi_schedules Example.gaussian_square 0 1 Example.backend [10; 20]
      (PyFloat 0.25%float) 2%float 2 None (Some no_flip_cmd_def)
    = Raise (PulseError msg).
Proof.
  destruct (builders_without_durations Example.gaussian_square 0 1 Example.backend
              (PyFloat 0.25%float) 2%float 2 None (Some no_flip_cmd_def)
              (DriveChannel 0, DriveChannel 1, ControlChannel 0) eq_refl)
    as (H1 & _ & H2).
  split; [exact H1 | exact (H2 eq_refl [10; 20])].
Defined.

(** ** The half duration of the echoed builder *)

Lemma half_truncates_from_sound (n : nat) :
  forall d,
    half_truncates_from n d = true ->
    forall k, d <= k < d + Z.of_nat n ->
              half_truncates k = true /\ half_truncates (- k) = true.
Proof.
  induction n as [| n IH]; intros d H k Hk.
  - lia.
  - cbn [half_truncates_from] in H.
    apply andb_true_iff in H as [H Hrest]. apply andb_true_iff in H as [Hd Hnd].
    destruct (Z.eq_dec k d) as [-> | Hne].
    + split; assumption.
    + apply (IH (d + 1) Hrest). lia.
Qed.

Lemma half_truncates_spec (d : Z) :
  half_truncates d = true -> half_of d = Ok (Z.quot d 2).
Proof.
  unfold half_truncates. destruct (half_of d) as [h | e]; [| discriminate].
  intros H. apply Z.eqb_eq in H. subst h. reflexivity.
Qed.

(** X10: for a duration of at most 65536 samples in absolute value,
    [int(0.5 * cr_sample)] is the quotient of the duration by 2 rounded
    towards zero: an odd duration loses one sample to the two halves. *)
Theorem half_duration_truncates :
  forall d, -65536 <= d <= 65536 -> half_of d = Ok (Z.quot d 2).
Proof.
  intros d Hd.
  assert (half_truncates_from (Z.to_nat 65537) 0 = true) as Hall
    by (vm_compute; reflexivity).
  apply half_truncates_spec.
  destruct (Z_lt_ge_dec d 0) as [Hneg | Hpos].
  - destruct (half_truncates_from_sound _ _ Hall (- d)) as [_ H]; [lia |].
    rewrite Z.opp_involutive in H. exact H.
  - destruct (half_truncates_from_sound _ _ Hall d) as [H _]; [lia | exact H].
Qed.

Lemma half_duration_truncates_witness :
  half_of 21 = Ok 10 /\ half_of (-21) = Ok (-10).
Proof.
  split.
  - apply (half_duration_truncates 21). lia.
  - apply (half_duration_truncates (-21)). lia.
Defined.

(** ** The names of the builders' schedules *)

Lemma str_of_int_inj (a b : Z) : str_of_int a = str_of_int b -> a = b.
Proof.
  unfold str_of_int. intros H.
  assert (forall z, NilZero.int_of_string (NilZero.string_of_int (Z.to_int z))
                    = Some (Z.to_int z)) as Hparse.
  { intros z. apply NilZero.isi.
    - destruct z as [| p | p]; simpl; try discriminate.
      intros E. injection E as E. apply (DecimalPos.Unsigned.to_uint_nonnil p E).
    - destruct z as [| p | p]; simpl; try discriminate.
      intros E. injection E as E. apply (DecimalPos.Unsigned.to_uint_nonnil p E). }
  apply DecimalZ.to_int_inj.
  apply (f_equal NilZero.int_of_string) in H.
  rewrite !Hparse in H. injection H as H. exact H.
Qed.

(** X11: the schedules that a Rabi builder returns have pairwise
    different names: the decimal strings of different positions
    differ. *)
Theorem builder_schedule_names_are_distinct :
  forall gaussian_square c_qubit t_qubit backend cr_samples cr_amp sigma risefall
         cancellation_amp cmd_def cr_times schedules,
    cr1_rabi_schedules gaussian_square c_qubit t_qubit backend cr_samples cr_amp
      sigma risefall cancellation_amp cmd_def = Ok (cr_times, schedules) \/
    cr2_rabi_schedules gaussian_square c_qubit t_qubit backend cr_samples cr_amp
      sigma risefall cancellation_amp cmd_def = Ok (cr_times, schedules) ->
    forall i j sched_i sched_j,
      nth_error schedules i = Some sched_i ->
      nth_error schedules j = Some sched_j ->
      name sched_i = name sched_j ->
      i = j.
Proof.
  intros gs c t backend cr_samples cr_amp sigma risefall camp cmd_def cr_times
    schedules H i j si sj Hi Hj Hname.
  assert (forall k sched,
            nth_error schedules k = Some sched ->
            name sched = VStr (str_of_int (Z.of_nat k)) /\
            instructions sched = [] /\ duration sched = 0) as Hall.
  { destruct H as [H | H].
    - apply cr1_rabi_schedules_inv in H as (t_drive & cr_drive & Hloop & _).
      apply (builder_loop_result _ _ _ (cr1_body_appends_fresh gs _ _ _ _ _ _) Hloop).
    - apply cr2_rabi_schedules_inv in H as (t_drive & cr_drive & echo_pi & Hloop & _).
      apply (builder_loop_result _ _ _
               (cr2_body_appends_fresh gs _ _ _ _ _ _ _ _) Hloop). }
  destruct (Hall i si Hi) as (Hni & _). destruct (Hall j sj Hj) as (Hnj & _).
  rewrite Hni, Hnj in Hname. injection Hname as Hname.
  apply str_of_int_inj in Hname. lia.
Qed.

Lemma builder_schedule_names_are_distinct_witness :
  exists cr_times sched0 sched1,
    cr1_example None = Ok (cr_times, [sched0; sched1]) /\
    name sched0 <> name sched1.
Proof.
  assert (exists cr_times sched0 sched1,
             cr1_example None = Ok (cr_times, [sched0; sched1]))
    as (cr_times & s0 & s1 & E).
  { vm_compute. eauto. }
  exists cr_times, s0, s1. split; [exact E |].
  intros Hname.
  pose proof (builder_schedule_names_are_distinct _ _ _ _ _ _ _ _ _ _ _ _
                (or_introl E) 0%nat 1%nat s0 s1 eq_refl eq_refl Hname) as H.
  discriminate H.
Defined.

(** ** Collisions *)

Lemma overlaps_shift (t : Z) (a b : timed) :
  overlaps (t + fst a, snd a) (t + fst b, snd b) = overlaps a b.
Proof.
  unfold overlaps, start_of, stop_of. simpl.
  destruct (shares_channel (snd a) (snd b)); [| reflexivity]. simpl.
  f_equal.
  - destruct (Z.ltb_spec (t + fst a) (t + fst b + command_duration (command (snd b))));
      destruct (Z.ltb_spec (fst a) (fst b + command_duration (command (snd b))));
      try reflexivity; lia.
  - destruct (Z.ltb_spec (t + fst b) (t + fst a + command_duration (command (snd a))));
      destruct (Z.ltb_spec (fst b) (fst a + command_duration (command (snd a))));
      try reflexivity; lia.
Qed.

Lemma collision_free_shift (t : Z) (l : list timed) :
  collision_free l -> collision_free (shift_timed t l).
Proof.
  unfold collision_free, shift_timed.
  induction 1 as [| a l Ha _ IH]; simpl.
  - constructor.
  - constructor; [| exact IH].
    apply Forall_map. eapply Forall_impl; [| exact Ha].
    intros b Hb. simpl. rewrite overlaps_shift. exact Hb.
Qed.

Lemma collision_free_app (l1 l2 : list timed) :
  collision_free l1 -> collision_free l2 ->
  (forall a b, In a l1 -> In b l2 -> overlaps a b = false) ->
  collision_free (l1 ++ l2).
Proof.
  unfold collision_free. intros H1 H2 H12.
  induction H1 as [| a l Ha _ IH]; simpl.
  - exact H2.
  - constructor.
    + apply Forall_app. split; [exact Ha |].
      apply Forall_forall. intros b Hb. apply H12; [left; reflexivity | exact Hb].
    + apply IH. intros x y Hx Hy. apply H12; [right; exact Hx | exact Hy].
Qed.

Lemma existsb_false_inv {A : Type} (f : A -> bool) (l : list A) :
  existsb f l = false -> forall x, In x l -> f x = false.
Proof.
  intros H x Hx. destruct (f x) eqn:E; [| reflexivity].
  assert (existsb f l = true) as H' by (apply existsb_exists; exists x; split; assumption).
  congruence.
Qed.

Lemma place_Ok_collision_free old t l out :
  place old t l = Ok out ->
  collision_free old -> collision_free l -> collision_free out.
Proof.
  unfold place. intros H Hold Hl.
  destruct (existsb _ (shift_timed t l)); [discriminate H |].
  destruct (existsb _ old) eqn:E; [discriminate H |].
  injection H as <-.
  apply collision_free_app; [exact Hold | apply collision_free_shift, Hl |].
  intros a b Ha Hb.
  apply (existsb_false_inv _ _ (existsb_false_inv _ _ E a Ha) b Hb).
Qed.

Lemma insert_Ok_collision_free self t schedule out :
  insert self t schedule = Ok out ->
  collision_free (instructions self) -> collision_free (instructions schedule) ->
  collision_free (instructions out).
Proof.
  unfold insert. intros H Hs Hc. apply bind_Ok_inv in H as (l & Hl & H).
  injection H as <-. simpl. apply (place_Ok_collision_free _ _ _ _ Hl Hs Hc).
Qed.

Lemma tomography_sched_collision_free flip_ctrl buffer rabi_sched basis meas_sched
  c_state sched :
  tomography_sched flip_ctrl buffer rabi_sched basis meas_sched c_state = Ok sched ->
  collision_free (instructions flip_ctrl) ->
  collision_free (instructions rabi_sched) ->
  collision_free (instructions meas_sched) ->
  collision_free (instructions sched).
Proof.
  unfold tomography_sched. intros H Hflip Hrabi Hmeas.
  apply bind_Ok_inv in H as (n & _ & H).
  apply bind_Ok_inv in H as (s1 & H1 & H).
  apply bind_Ok_inv in H as (s2 & H2 & H3).
  assert (collision_free (instructions s1)) as C1.
  { destruct (negb (c_state =? 0)).
    - apply (insert_Ok_collision_free _ _ _ _ H1); [constructor | exact Hflip].
    - injection H1 as <-. constructor. }
  pose proof (insert_Ok_collision_free _ _ _ _ H2 C1 Hrabi) as C2.
  apply (insert_Ok_collision_free _ _ _ _ H3 C2 Hmeas).
Qed.

(** X12: when the calibrated schedules and the Rabi schedules are free
    of collisions, so is every schedule that
    [cr_tomography_schedules] returns: no two of its instructions
    overlap on a channel they share. *)
Theorem tomography_schedules_are_collision_free :
  forall c_qubit t_qubit backend rabi_schedules cmd_def schedules
         meas_qubits flip_ctrl measure xproj_sched yproj_sched,
    cr_tomography_schedules c_qubit t_qubit backend rabi_schedules cmd_def
    = Ok schedules ->
    index (meas_map backend) 0 = Ok meas_qubits ->
    get (resolve_cmd_def backend cmd_def) "x" [c_qubit] [] = Ok flip_ctrl ->
    get (resolve_cmd_def backend cmd_def) "measure" meas_qubits [] = Ok measure ->
    get (resolve_cmd_def backend cmd_def) "u2" [t_qubit] x_params = Ok xproj_sched ->
    get (resolve_cmd_def backend cmd_def) "u2" [t_qubit] y_params = Ok yproj_sched ->
    collision_free (instructions flip_ctrl) ->
    collision_free (instructions measure) ->
    collision_free (instructions xproj_sched) ->
    collision_free (instructions yproj_sched) ->
    forall r rabi_sched b c,
      nth_error rabi_schedules r = Some rabi_sched ->
      collision_free (instructions rabi_sched) ->
      (b < 3)%nat -> (c < 2)%nat ->
      exists sched,
        nth_error schedules (6 * r + 2 * b + c) = Some sched /\
        collision_free (instructions sched).
Proof.
  intros c_qubit t_qubit backend rabi_schedules cmd_def schedules
    meas_qubits flip_ctrl measure xproj_sched yproj_sched
    H Hmq Hflip Hmeasure Hx Hy Cflip Cmeasure Cx Cy
    r rabi_sched b c Hr Crabi Hb Hc.
  apply cr_tomography_schedules_inv_full in H
    as (flip' & mq' & measure' & xproj' & yproj' & meas_x & meas_y & meas_z
        & Hflip' & Hmq' & Hmeasure' & Hx' & Hy' & Hmx & Hmy & Hmz & Hnth).
  rewrite Hflip in Hflip'. injection Hflip' as <-.
  rewrite Hmq in Hmq'. injection Hmq' as <-.
  rewrite Hmeasure in Hmeasure'. injection Hmeasure' as <-.
  rewrite Hx in Hx'. injection Hx' as <-.
  rewrite Hy in Hy'. injection Hy' as <-.
  destruct (nth_error (bases meas_x meas_y meas_z) b) as [[basis meas_sched] |] eqn:Eb.
  2: { apply nth_error_None in Eb. simpl in Eb. lia. }
  assert (collision_free (instructions meas_sched)) as Cmeas.
  { destruct b as [| [| [| b]]]; [| | | lia]; simpl in Eb; injection Eb as <- <-.
    - apply (insert_Ok_collision_free _ _ _ _ Hmx Cx Cmeasure).
    - apply (insert_Ok_collision_free _ _ _ _ Hmy Cy Cmeasure).
    - unfold shift in Hmz. apply bind_Ok_inv in Hmz as (l & Hl & Hmz).
      injection Hmz as <-. simpl.
      apply (place_Ok_collision_free _ _ _ _ Hl); [constructor | exact Cmeasure]. }
  destruct (Hnth r rabi_sched b basis meas_sched c Hr Eb Hc) as (sched & Hs & Hts).
  exists sched. split; [exact Hs |].
  apply (tomography_sched_collision_free _ _ _ _ _ _ _ Hts Cflip Crabi Cmeas).
Qed.

Ltac concrete_collision_free :=
  unfold collision_free; simpl; repeat constructor.

Lemma tomography_schedules_are_collision_free_witness :
  exists sched,
    nth_error
      (match cr_tomography_schedules 0 1 Example.backend [rabi_delay] None with
       | Ok schedules => schedules
       | Raise _ => []
       end) 1 = Some sched /\
    collision_free (instructions sched).
Proof.
  assert (exists schedules,
             cr_tomography_schedules 0 1 Example.backend [rabi_delay] None
             = Ok schedules) as (schedules & E).
  { vm_compute. eauto. }
  destruct (tomography_schedules_are_collision_free 0 1 Example.backend [rabi_delay]
              None schedules [0; 1] (Example.x_gate 0) Example.measure_all
              (Example.u2_gate 1 pi) (Example.u2_gate 1 (PrimFloat.mul 0.5%float pi))
              E eq_refl eq_refl eq_refl eq_refl eq_refl
              ltac:(concrete_collision_free) ltac:(concrete_collision_free)
              ltac:(concrete_collision_free) ltac:(concrete_collision_free)
              0%nat rabi_delay 0%nat 1%nat eq_refl
              ltac:(concrete_collision_free) ltac:(lia) ltac:(lia))
    as (sched & Hs & Hc).
  exists sched. rewrite E. split; assumption.
Defined.

(** ** When the builders return *)

Lemma cancellation_accepted_command gaussian_square cancellation_amp sign sigma
  risefall d :
  cancellation_accepted gaussian_square cancellation_amp sign sigma risefall d ->
  exists cmd,
    cancellation_command gaussian_square cancellation_amp sign d sigma risefall
    = Ok cmd /\
    0 <= command_duration cmd.
Proof.
  unfold cancellation_accepted, cancellation_command.
  destruct cancellation_amp as [amp |].
  - destruct (num_truthy amp).
    + intros (samples & ->). simpl. eexists. split; [reflexivity |]. simpl. lia.
    + intros Hd. eexists. split; [reflexivity | exact Hd].
  - intros Hd. eexists. split; [reflexivity | exact Hd].
Qed.

(** X13: [cr1_rabi_schedules] returns, as many times and schedules as
    durations, when channel resolution succeeds and for every duration
    the library builds the CR pulse, the duration fits a float, and
    either the library builds the cancellation pulse or, with no
    cancellation amplitude or a zero one, the duration is not
    negative. *)
Theorem cr1_rabi_schedules_returns_when :
  forall gaussian_square c_qubit t_qubit backend cr_samples cr_amp sigma risefall
         cancellation_amp cmd_def channels,
    _get_channels c_qubit t_qubit backend cmd_def = Ok channels ->
    Forall (fun d =>
              (exists samples, gaussian_square d cr_amp sigma risefall = Ok samples) /\
              cancellation_accepted gaussian_square cancellation_amp (fun a => a)
                sigma risefall d /\
              exists x, float_of_int d = Ok x)
           cr_samples ->
    exists cr_times schedules,
      cr1_rabi_schedules gaussian_square c_qubit t_qubit backend cr_samples cr_amp
        sigma risefall cancellation_amp cmd_def = Ok (cr_times, schedules) /\
      length cr_times = length cr_samples /\
      length schedules = length cr_samples.
Proof.
  intros gs c t backend cr_samples cr_amp sigma risefall camp cmd_def channels
    Hch Hall.
  destruct (cr1_rabi_schedules_returns gs c t backend cr_samples cr_amp sigma
              risefall camp cmd_def channels Hch)
    as (cr_times & schedules & E & Hlen).
  - eapply Forall_impl; [| exact Hall].
    intros d (Hcr & Hcan & Hfloat). split; [| exact Hfloat].
    split; [exact Hcr |]. apply cancellation_accepted_command, Hcan.
  - exists cr_times, schedules. split; [exact E |]. split; [| exact Hlen].
    apply cr1_rabi_schedules_inv in E as (_ & _ & _ & Htimes).
    apply cr_times_of_spec in Htimes. symmetry. apply (Forall2_length Htimes).
Qed.

Lemma cr1_rabi_schedules_returns_when_witness :
  exists cr_times schedules,
    cr1_rabi_schedules Example.gaussian_square 0 1 Example.backend [10; 20]
      (PyFloat 0.25%float) 2%float 2 (Some (PyFloat 0.125%float)) None
    = Ok (cr_times, schedules) /\
    length cr_times = 2%nat /\
    length schedules = 2%nat.
Proof.
  apply (cr1_rabi_schedules_returns_when Example.gaussian_square 0 1 Example.backend
           [10; 20] (PyFloat 0.25%float) 2%float 2 (Some (PyFloat 0.125%float)) None
           (DriveChannel 0, DriveChannel 1, ControlChannel 0) eq_refl).
  repeat constructor; try (eexists; reflexivity).
Defined.

(** X14: [cr2_rabi_schedules] returns, as many times and schedules as
    durations, when channel resolution succeeds, the [x] of the control
    qubit is calibrated and begins at times that are not negative, the
    buffer is not negative, and for every duration the half duration is
    computed, the library builds the two CR pulses of that half
    duration, the duration fits a float, and either the library builds
    the two cancellation pulses or, with no cancellation amplitude or a
    zero one, the half duration is not negative. *)
Theorem cr2_rabi_schedules_returns_when :
  forall gaussian_square c_qubit t_qubit backend cr_samples cr_amp sigma risefall
         cancellation_amp cmd_def channels echo_pi,
    _get_channels c_qubit t_qubit backend cmd_def = Ok channels ->
    get (resolve_cmd_def backend cmd_def) "x" [c_qubit] [] = Ok echo_pi ->
    well_timed echo_pi ->
    0 <= buffer backend ->
    Forall (fun d =>
              (exists half,
                 half_of d = Ok half /\
                 (exists samples, gaussian_square half cr_amp sigma risefall = Ok samples) /\
                 (exists samples,
                    gaussian_square half (neg cr_amp) sigma risefall = Ok samples) /\
                 cancellation_accepted gaussian_square cancellation_amp (fun a => a)
                   sigma risefall half /\
                 cancellation_accepted gaussian_square cancellation_amp neg
                   sigma risefall half) /\
              exists x, float_of_int d = Ok x)
           cr_samples ->
    exists cr_times schedules,
      cr2_rabi_schedules gaussian_square c_qubit t_qubit backend cr_samples cr_amp
        sigma risefall cancellation_amp cmd_def = Ok (cr_times, schedules) /\
      length cr_times = length cr_samples /\
      length schedules = length cr_samples.
Proof.
  intros gs c t backend cr_samples cr_amp sigma risefall camp cmd_def channels
    echo_pi Hch Hecho Wecho Hbuf Hall.
  destruct (cr2_rabi_schedules_returns gs c t backend cr_samples cr_amp sigma
              risefall camp cmd_def channels echo_pi Hch Hecho Wecho Hbuf)
    as (cr_times & schedules & E & Hlen).
  - eapply Forall_impl; [| exact Hall].
    intros d ((half & Hhalf & Hp & Hm & Hcp & Hcm) & Hfloat).
    split; [| exact Hfloat].
    exists half. split; [exact Hhalf |]. split.
    + split; [exact Hp | apply cancellation_accepted_command, Hcp].
    + split; [exact Hm | apply cancellation_accepted_command, Hcm].
  - exists cr_times, schedules. split; [exact E |]. split; [| exact Hlen].
    apply cr2_rabi_schedules_inv in E as (_ & _ & _ & _ & Htimes).
    apply cr_times_of_spec in Htimes. symmetry. apply (Forall2_length Htimes).
Qed.

Lemma cr2_rabi_schedules_returns_when_witness :
  exists cr_times schedules,
    cr2_rabi_schedules Example.gaussian_square 0 1 Example.backend [10; 21]
      (PyFloat 0.25%float) 2%float 2 None None
    = Ok (cr_times, schedules) /\
    length cr_times = 2%nat /\
    length schedules = 2%nat.
Proof.
  apply (cr2_rabi_schedules_returns_when Example.gaussian_square 0 1 Example.backend
           [10; 21] (PyFloat 0.25%float) 2%float 2 None None
           (DriveChannel 0, DriveChannel 1, ControlChannel 0) (Example.x_gate 0)
           eq_refl eq_refl).
  - concrete_slots.
  - simpl. lia.
  - repeat constructor.
    + exists 5. repeat split; try (eexists; reflexivity); simpl; lia.
    + eexists. reflexivity.
    + exists 10. repeat split; try (eexists; reflexivity); simpl; lia.
    + eexists. reflexivity.
Defined.
